(** * Persian (Jalali) date picker: the calendar engine of
      [persian_date_picker.py], embedded and verified.

    The Python class [PersianDatePicker] is embedded shallowly:
    - Python values that the engine handles (ints, strs, lists, a dict) are
      [Z], [string] (the UTF-8 bytes of the Python str), [list] and [gmap];
    - exceptions are an error monad ([Py.result]);
    - the Telegram calls of [process_selection] ([query.answer],
      [query.edit_message_reply_markup]) are recorded in a trace of effects;
    - the class attributes, the [persiantools] library it calls and the
      Unicode database that [int] consults are the Variables of the Section
      [PersianDatePicker]. *)

From Stdlib Require Import ZArith Lia Ascii String Decimal DecimalString DecimalZ DecimalPos.
From stdpp Require Import base option list gmap strings.

Open Scope Z_scope.

(** ** The Python fragment the source relies on *)

Module Py.

Inductive exn := IndexError | ValueError.

Inductive result (A : Type) :=
| Ok (a : A)
| Raise (e : exn).
Arguments Ok {A} a.
Arguments Raise {A} e.

Definition bind {A B} (r : result A) (k : A -> result B) : result B :=
  match r with
  | Ok a => k a
  | Raise e => Raise e
  end.

(** [l[i]]: a negative subscript counts from the end; outside
    [-len(l) .. len(l)-1] an IndexError is raised. *)
Definition getitem {A} (l : list A) (i : Z) : result A :=
  let n := Z.of_nat (length l) in
  let j := if i <? 0 then i + n else i in
  if (0 <=? j) && (j <? n) then
    match l !! Z.to_nat j with
    | Some x => Ok x
    | None => Raise IndexError
    end
  else Raise IndexError.

(** [str(n)] and [f"{n}"] for an int: decimal, a minus sign for negative
    numbers, no padding. *)
Definition str (n : Z) : string := NilEmpty.string_of_int (Z.to_int n).

(** [s.startswith(p)]. *)
Definition startswith (s p : string) : bool := String.prefix p s.

(** [s.split(sep)] for a one-character separator: the fields between the
    separators, of which there is always at least one. *)
Fixpoint split (sep : Ascii.ascii) (s : string) : list string :=
  match s with
  | EmptyString => [EmptyString]
  | String c s' =>
      if Ascii.eqb c sep then EmptyString :: split sep s'
      else match split sep s' with
           | f :: fs => String c f :: fs
           | [] => [String c EmptyString]
           end
  end.

(** The characters that [int] strips as white space around an ASCII
    literal: tab, line feed, vertical tab, form feed, carriage return (0x09
    to 0x0d) and the space. The separators 0x1c..0x1f are not among them. *)
Definition is_space (c : Ascii.ascii) : bool :=
  let n := Z.of_nat (Ascii.nat_of_ascii c) in
  ((9 <=? n) && (n <=? 13)) || (n =? 32).

(** [s.isascii()]: no byte above 127. *)
Fixpoint isascii (s : string) : bool :=
  match s with
  | EmptyString => true
  | String c s' => (Z.of_nat (Ascii.nat_of_ascii c) <? 128) && isascii s'
  end.

Fixpoint lstrip (s : string) : string :=
  match s with
  | String c s' => if is_space c then lstrip s' else s
  | EmptyString => EmptyString
  end.

Fixpoint rstrip (s : string) : string :=
  match s with
  | String c s' =>
      match rstrip s' with
      | EmptyString => if is_space c then EmptyString else String c EmptyString
      | r => String c r
      end
  | EmptyString => EmptyString
  end.

Definition nonempty (s : string) : bool :=
  match s with EmptyString => false | _ => true end.

(** The digits of a decimal literal: groups of one or more digits,
    separated by single underscores. *)
Definition int_digits (s : string) : option Z :=
  let groups := split "_"%char s in
  if forallb nonempty groups
  then Z.of_uint <$> NilEmpty.uint_of_string (String.concat "" groups)
  else None.

(** The parser of an ASCII literal in base 10: surrounding white space is
    stripped, then comes an optional sign and the digits; anything else
    raises ValueError. *)
Definition long_from_string (s : string) : result Z :=
  let body := rstrip (lstrip s) in
  let parsed :=
    match body with
    | String "-"%char ds => Z.opp <$> int_digits ds
    | String "+"%char ds => int_digits ds
    | _ => int_digits body
    end in
  match parsed with
  | Some n => Ok n
  | None => Raise ValueError
  end.

(** [int(s)] for a str. An ASCII str is parsed as it is. A str with a
    character outside ASCII is first rewritten to ASCII with the Unicode
    database, [unicode_to_ascii]: a decimal digit of any script becomes its
    ASCII digit, white space becomes a space, and the text is cut, with a
    question mark, at the first character that is neither. The database is
    a parameter. The limit on the number of digits (4300 by default) is not
    modelled: callback data have at most 64 bytes. *)
Definition int (unicode_to_ascii : string -> string) (s : string) : result Z :=
  long_from_string (if isascii s then s else unicode_to_ascii s).

End Py.

Import Py.

Notation "x <- c1 ;; c2" := (Py.bind c1 (fun x => c2))
  (at level 100, c1 at next level, right associativity).

(** ** The Telegram values the engine builds *)

Record InlineKeyboardButton := {
  text : string;
  callback_data : string
}.

Record InlineKeyboardMarkup := {
  inline_keyboard : list (list InlineKeyboardButton)
}.

(** What [process_selection] does to its [query] argument. *)
Inductive effect :=
| answer
| edit_message_reply_markup (reply_markup : InlineKeyboardMarkup).

(** A run of a coroutine of the engine: the calls on [query] made so far, in
    order, and the value returned or the exception raised. *)
Definition run (A : Type) : Type := list effect * result A.

Definition ret {A} (a : A) : run A := ([], Ok a).

Definition call (e : effect) : run unit := ([e], Ok tt).

Definition lift {A} (r : result A) : run A := ([], r).

Definition then_ {A B} (c : run A) (k : A -> run B) : run B :=
  match c with
  | (es, Ok a) => let '(es', r) := k a in (es ++ es', r)
  | (es, Raise e) => (es, Raise e)
  end.

Notation "x <~ c1 ;; c2" := (then_ c1 (fun x => c2))
  (at level 100, c1 at next level, right associativity).
Notation "c1 ;;; c2" := (then_ c1 (fun _ => c2))
  (at level 100, right associativity).

(** ** persiantools.jdatetime.JalaliDate: the value *)

Record JalaliDate := {
  year : Z;
  month : Z;
  day : Z
}.


(** ** An arithmetic Jalali calendar

    The engine is verified against the interface of [JalaliDate] (the
    Variables of the Section below), not against one implementation of it.
    This module is one instance of that interface, the 2820-year arithmetic
    calendar; the engine is evaluated on it for concrete months. *)

Module Arithmetic.

Definition MINYEAR : Z := 1.
Definition MAXYEAR : Z := 9377.

Definition is_leap (y : Z) : bool := ((y + 2346) * 683) mod 2820 <? 683.

Definition days_in_month (m y : Z) : Z :=
  if m <=? 6 then 31
  else if m <=? 11 then 30
  else if is_leap y then 30 else 29.

(** The dates the constructor [JalaliDate(y, m, d)] accepts. *)
Definition check_date (y m d : Z) : bool :=
  (MINYEAR <=? y) && (y <=? MAXYEAR) &&
  (1 <=? m) && (m <=? 12) &&
  (1 <=? d) && (d <=? days_in_month m y).

(** Leap years among the years [.. a]. *)
Definition leaps_upto (a : Z) : Z := (a + 2346) * 683 / 2820.

Definition days_before_month (m : Z) : Z :=
  if m <=? 7 then (m - 1) * 31 else 186 + (m - 7) * 30.

(** The proleptic Gregorian ordinal of a Jalali date; 1 Farvardin 1402 is
    21 March 2023, ordinal 738600. *)
Definition toordinal (d : JalaliDate) : Z :=
  365 * (year d - 1) + leaps_upto (year d - 1)
  + days_before_month (month d) + (day d - 1) + 226328.

(** [date.to_gregorian().weekday()]: Monday is 0 and Sunday is 6. *)
Definition weekday (d : JalaliDate) : Z := (toordinal d + 6) mod 7.

End Arithmetic.

(** ** A configured picker

    The attributes of one picker and the day its calendar defaults to, for
    the evaluation of the engine on concrete inputs. *)

Module Sample.

Definition callback_pattern : string := "cal".

Definition holidays : gmap string string :=
  {[ "1402/1/1" := "عید نوروز"; "1402/1/12" := "روز جمهوری اسلامی" ]}.

Definition today : JalaliDate := {| year := 1402; month := 1; day := 5 |}.

Definition ascii_digit (n : nat) : Ascii.ascii := Ascii.ascii_of_nat (48 + n).

(** A part of the Unicode database, on the UTF-8 bytes of a str: the
    Arabic-Indic digits U+0660..U+0669 (bytes D9 A0..A9) and the Persian
    digits U+06F0..U+06F9 (bytes DB B0..B9) become ASCII digits; the
    characters below 127 are kept, and at any other character the text is
    cut, with a question mark. *)
Fixpoint unicode_to_ascii (s : string) : string :=
  match s with
  | EmptyString => EmptyString
  | String c s' =>
      let n := Ascii.nat_of_ascii c in
      if (n <? 127)%nat then String c (unicode_to_ascii s')
      else
        match s' with
        | String c' s'' =>
            let n' := Ascii.nat_of_ascii c' in
            if ((n =? 217) && (160 <=? n') && (n' <=? 169))%nat
            then String (ascii_digit (n' - 160)) (unicode_to_ascii s'')
            else if ((n =? 219) && (176 <=? n') && (n' <=? 185))%nat
            then String (ascii_digit (n' - 176)) (unicode_to_ascii s'')
            else "?"
        | EmptyString => "?"
        end
  end.

End Sample.

(** ** The class [PersianDatePicker] *)

Section PersianDatePicker.

(** [self.callback_pattern] and [self.holidays]. *)
Variable callback_pattern : string.
Variable holidays : gmap string string.

(** [JalaliDate.today()], the dates the constructor [JalaliDate(y, m, d)]
    accepts, [JalaliDate.is_leap] and [date.to_gregorian().weekday()]. *)
Variable today : JalaliDate.
Variable check_date : Z -> Z -> Z -> bool.
Variable is_leap : Z -> bool.
Variable weekday : JalaliDate -> Z.

(** The Unicode database that [int] consults for a str with a character
    outside ASCII. *)
Variable unicode_to_ascii : string -> string.

#[local] Abbreviation int := (Py.int unicode_to_ascii).

(** [JalaliDate(y, m, d)]: a ValueError for a date that does not exist. *)
Definition new_JalaliDate (y m d : Z) : result JalaliDate :=
  if check_date y m d then Ok {| year := y; month := m; day := d |}
  else Raise ValueError.

Definition weekdays : list string :=
  ["ش"; "ی"; "د"; "س"; "چ"; "پ"; "ج"].

Definition months : list string :=
  ["فروردین"; "اردیبهشت"; "خرداد"; "تیر"; "مرداد"; "شهریور";
   "مهر"; "آبان"; "آذر"; "دی"; "بهمن"; "اسفند"].

Definition _get_persian_month_name (month : Z) : result string :=
  getitem months (month - 1).

Definition date_str (date : JalaliDate) : string :=
  str (year date) +:+ "/" +:+ str (month date) +:+ "/" +:+ str (day date).

Definition _is_holiday (date : JalaliDate) : bool :=
  bool_decide (is_Some (holidays !! date_str date)) || (weekday date =? 4).

(** The arguments of [create_calendar] after its first statement: today's
    year and month when either argument is None or 0. *)
Definition resolve (year_arg month_arg : option Z) : Z * Z :=
  match year_arg, month_arg with
  | Some y, Some m =>
      if (y =? 0) || (m =? 0) then (year today, month today) else (y, m)
  | _, _ => (year today, month today)
  end.

Definition ignore_button (label : string) : InlineKeyboardButton :=
  {| text := label; callback_data := "ignore" |}.

Definition blank : InlineKeyboardButton := ignore_button " ".

Definition nav_token (action : string) (year month : Z) : string :=
  callback_pattern +:+ "_" +:+ action +:+ "_" +:+ str year +:+ "_" +:+ str month.

Definition day_token (year month day : Z) : string :=
  callback_pattern +:+ "_day_" +:+ str year +:+ "_" +:+ str month
  +:+ "_" +:+ str day.

Definition header_row (year month : Z) (name : string) : list InlineKeyboardButton :=
  [ {| text := "←"; callback_data := nav_token "prev" year month |};
    ignore_button (name +:+ " " +:+ str year);
    {| text := "→"; callback_data := nav_token "next" year month |} ].

Definition weekday_row : list InlineKeyboardButton :=
  ignore_button <$> weekdays.

(** Lines 105-106. *)
Definition start_weekday (first_day : JalaliDate) : Z :=
  (weekday first_day + 2) mod 7.

(** Lines 108-113. *)
Definition days_in_month (year month : Z) : Z :=
  if month <=? 6 then 31
  else if month <=? 11 then 30
  else if negb (is_leap year) then 29 else 30.

Definition day_button (year month day : Z) (date : JalaliDate) : InlineKeyboardButton :=
  {| text := if _is_holiday date then "🔴" +:+ str day else str day;
     callback_data := day_token year month day |}.

(** The body of the loop over the days: the state is [keyboard] and
    [current_row]. *)
Definition add_day (year month : Z)
    (st : list (list InlineKeyboardButton) * list InlineKeyboardButton)
    (day : Z)
  : result (list (list InlineKeyboardButton) * list InlineKeyboardButton) :=
  let '(keyboard, current_row) := st in
  date <- new_JalaliDate year month day ;;
  let current_row := current_row ++ [day_button year month day date] in
  if Z.of_nat (length current_row) =? 7
  then Ok (keyboard ++ [current_row], [])
  else Ok (keyboard, current_row).

Fixpoint add_days (year month : Z) (days : list Z)
    (st : list (list InlineKeyboardButton) * list InlineKeyboardButton)
  : result (list (list InlineKeyboardButton) * list InlineKeyboardButton) :=
  match days with
  | [] => Ok st
  | day :: days' =>
      st' <- add_day year month st day ;;
      add_days year month days' st'
  end.

(** Lines 136-139: the last row is filled up to seven cells. *)
Definition close_row
    (st : list (list InlineKeyboardButton) * list InlineKeyboardButton)
  : list (list InlineKeyboardButton) :=
  let '(keyboard, current_row) := st in
  match current_row with
  | [] => keyboard
  | _ => keyboard ++ [current_row ++ replicate (7 - length current_row)%nat blank]
  end.

Definition create_calendar (year month : option Z) : result InlineKeyboardMarkup :=
  let '(year, month) := resolve year month in
  name <- _get_persian_month_name month ;;
  let keyboard := [header_row year month name; weekday_row] in
  first_day <- new_JalaliDate year month 1 ;;
  let current_row := replicate (Z.to_nat (start_weekday first_day)) blank in
  st <- add_days year month (seqZ 1 (days_in_month year month))
          (keyboard, current_row) ;;
  Ok {| inline_keyboard := close_row st |}.

(** [map(int, fields)] unpacked into two, and into three, names: the fields
    are converted one by one as the unpacking asks for them, and a missing or
    an extra one is a ValueError as well. *)
Definition unpack2 (fields : list string) : result (Z * Z) :=
  match fields with
  | [] => Raise ValueError
  | [a] => _ <- int a ;; Raise ValueError
  | [a; b] => x <- int a ;; y <- int b ;; Ok (x, y)
  | a :: b :: c :: _ => _ <- int a ;; _ <- int b ;; _ <- int c ;; Raise ValueError
  end.

Definition unpack3 (fields : list string) : result (Z * Z * Z) :=
  match fields with
  | [] => Raise ValueError
  | [a] => _ <- int a ;; Raise ValueError
  | [a; b] => _ <- int a ;; _ <- int b ;; Raise ValueError
  | [a; b; c] => x <- int a ;; y <- int b ;; z <- int c ;; Ok (x, y, z)
  | a :: b :: c :: d :: _ =>
      _ <- int a ;; _ <- int b ;; _ <- int c ;; _ <- int d ;; Raise ValueError
  end.

(** Lines 182-191. *)
Definition navigate (action : string) (year month : Z) : Z * Z :=
  if String.eqb action "prev" then
    let month := month - 1 in
    if month <? 1 then (year - 1, 12) else (year, month)
  else
    let month := month + 1 in
    if month >? 12 then (year + 1, 1) else (year, month).

Definition process_selection (data : string) : run (option string) :=
  call answer ;;;
  if negb (startswith data callback_pattern) then ret None
  else
    action <~ lift (getitem (split "_" data) 1) ;;
    if String.eqb action "ignore" || negb (nonempty action) then ret None
    else if String.eqb action "prev" || String.eqb action "next" then
      ym <~ lift (unpack2 (drop 2 (split "_" data))) ;;
      let '(year, month) := navigate action ym.1 ym.2 in
      markup <~ lift (create_calendar (Some year) (Some month)) ;;
      call (edit_message_reply_markup markup) ;;;
      ret None
    else if String.eqb action "day" then
      ymd <~ lift (unpack3 (drop 2 (split "_" data))) ;;
      let '(year, month, day) := ymd in
      ret (Some (str year +:+ "/" +:+ str month +:+ "/" +:+ str day))
    else ret None.

(** What [show_calendar] does to its [message] argument. *)
Inductive message_effect :=
| reply_text (body : string) (reply_markup : InlineKeyboardMarkup).

Definition newline : string := String "010"%char EmptyString.

(** Lines 152-153: the line that tells today's date. *)
Definition today_str (name : string) : string :=
  "امروز: " +:+ str (day today) +:+ " " +:+ name +:+ " " +:+ str (year today).

Definition show_calendar (year_arg month_arg : option Z)
  : list message_effect * result unit :=
  match _get_persian_month_name (month today) with
  | Raise e => ([], Raise e)
  | Ok name =>
      match create_calendar year_arg month_arg with
      | Raise e => ([], Raise e)
      | Ok markup =>
          ([reply_text ("لطفاً تاریخ مورد نظر را انتخاب کنید:" +:+ newline
                        +:+ today_str name) markup], Ok tt)
      end
  end.

(** [_load_holidays]: [file] is what opening and parsing
    persian_holidays.json gives, the parsed mapping or the text of the
    exception raised; the result is the lines printed and the mapping
    returned. *)
Definition _load_holidays (file : string + gmap string string)
  : list string * gmap string string :=
  match file with
  | inr loaded => ([], loaded)
  | inl e => (["Warning: Could not load holidays file: " +:+ e], ∅)
  end.

(** ** Vocabulary of the statements *)

Fixpoint all_chars (p : Ascii.ascii -> bool) (s : string) : bool :=
  match s with
  | EmptyString => true
  | String c s' => p c && all_chars p s'
  end.

Definition not_char (sep c : Ascii.ascii) : bool := negb (Ascii.eqb c sep).

(** A token prefix that does not contain the delimiter of the fields. *)
Definition no_underscore (s : string) : bool := all_chars (not_char "_") s.

Definition is_digit (c : Ascii.ascii) : bool :=
  let n := Z.of_nat (nat_of_ascii c) in (48 <=? n) && (n <=? 57).

(** A blank cell shows a single space. *)
Definition is_blank (b : InlineKeyboardButton) : bool := String.eqb (text b) " ".

(** The rows under the navigation row and the weekday row. *)
Definition day_rows (m : InlineKeyboardMarkup) : list (list InlineKeyboardButton) :=
  drop 2 (inline_keyboard m).

Definition ceil_div (a b : Z) : Z := (a + b - 1) / b.

(** A year and a month that [create_calendar] takes as they are and of which
    the library accepts every day. *)
Definition valid_month (year month : Z) : bool :=
  negb (year =? 0) && (1 <=? month) && (month <=? 12) &&
  forallb (check_date year month) (seqZ 1 (days_in_month year month)).

(** The cell of day [day]: its date is the one the constructor builds. *)
Definition day_cell (year month day : Z) : InlineKeyboardButton :=
  day_button year month day {| year := year; month := month; day := day |}.

(** A re-render of [(year, month)]: the query is answered, the keyboard of
    that month replaces the one of the message, and None is returned; if
    the keyboard cannot be built, its exception goes to the caller. *)
Definition re_render (year month : Z) : run (option string) :=
  match create_calendar (Some year) (Some month) with
  | Ok markup => ([answer; edit_message_reply_markup markup], Ok None)
  | Raise e => ([answer], Raise e)
  end.

(** A malformed numeric field: text that [int] rejects. *)
Definition malformed (field : string) : Prop := int field = Raise ValueError.

(** An argument that [not] takes for false: None, or 0. *)
Definition falsy (arg : option Z) : bool :=
  match arg with
  | None => true
  | Some n => n =? 0
  end.

(** The weekdays that the library gives to the days of a month follow one
    another. *)
Definition consecutive_weekdays (year month : Z) : bool :=
  forallb (fun d =>
             weekday {| year := year; month := month; day := d + 1 |}
             =? (weekday {| year := year; month := month; day := d |} + 1) mod 7)
          (seqZ 1 (days_in_month year month - 1)).

(** The number of numeric fields that follow an action. *)
Definition arity (action : string) : nat :=
  if String.eqb action "day" then 3%nat else 2%nat.

(** ** Strings: [str], [split], [startswith] and [int] *)

Lemma all_chars_weaken (p q : Ascii.ascii -> bool) (s : string) :
  (forall c, p c = true -> q c = true) ->
  all_chars p s = true -> all_chars q s = true.
Proof.
  intros Hpq. induction s as [|c s IH]; simpl; [reflexivity|].
  intros [Hc Hs]%andb_prop. rewrite (Hpq _ Hc), (IH Hs). reflexivity.
Qed.

Lemma string_of_uint_digits (d : uint) :
  all_chars is_digit (NilEmpty.string_of_uint d) = true.
Proof. induction d; simpl; auto. Qed.

Lemma is_digit_not_underscore c : is_digit c = true -> not_char "_" c = true.
Proof.
  destruct c as [[|] [|] [|] [|] [|] [|] [|] [|]]; vm_compute; congruence.
Qed.

Lemma is_digit_not_space c : is_digit c = true -> is_space c = false.
Proof.
  destruct c as [[|] [|] [|] [|] [|] [|] [|] [|]]; vm_compute; congruence.
Qed.

Lemma str_no_underscore (n : Z) : no_underscore (str n) = true.
Proof.
  unfold no_underscore, str.
  destruct n as [|p|p]; simpl; [reflexivity| |];
    apply (all_chars_weaken is_digit); auto using is_digit_not_underscore,
      string_of_uint_digits.
Qed.

Lemma split_no_sep sep (s : string) :
  all_chars (not_char sep) s = true -> split sep s = [s].
Proof.
  induction s as [|c s IH]; simpl; [reflexivity|].
  unfold not_char at 1. intros [Hc Hs]%andb_prop.
  apply negb_true_iff in Hc. rewrite Hc, (IH Hs). reflexivity.
Qed.

Lemma split_app_sep sep (a rest : string) :
  all_chars (not_char sep) a = true ->
  split sep (a +:+ String sep rest) = a :: split sep rest.
Proof.
  induction a as [|c a IH]; simpl.
  - intros _. rewrite Ascii.eqb_refl. reflexivity.
  - unfold not_char at 1. intros [Hc Ha]%andb_prop.
    apply negb_true_iff in Hc. rewrite Hc, (IH Ha). reflexivity.
Qed.

Lemma split_app_field sep (a rest : string) :
  all_chars (not_char sep) a = true ->
  split sep (a +:+ String sep EmptyString +:+ rest) = a :: split sep rest.
Proof. apply split_app_sep. Qed.

Lemma startswith_app (p s : string) : startswith (p +:+ s) p = true.
Proof.
  unfold startswith. induction p as [|c p IH]; simpl.
  - destruct s; reflexivity.
  - destruct (ascii_dec c c); [exact IH | congruence].
Qed.

Lemma rstrip_no_space (s : string) :
  all_chars (fun c => negb (is_space c)) s = true -> rstrip s = s.
Proof.
  induction s as [|c s IH]; simpl; [reflexivity|].
  intros [Hc Hs]%andb_prop. apply negb_true_iff in Hc.
  rewrite (IH Hs), Hc. destruct s; reflexivity.
Qed.

Lemma lstrip_digits (s : string) :
  all_chars is_digit s = true -> lstrip s = s.
Proof.
  destruct s as [|c s]; simpl; [reflexivity|].
  intros [Hc _]%andb_prop. rewrite (is_digit_not_space _ Hc). reflexivity.
Qed.

Lemma digits_no_space (s : string) :
  all_chars is_digit s = true ->
  all_chars (fun c => negb (is_space c)) s = true.
Proof.
  apply all_chars_weaken. intros c Hc.
  rewrite (is_digit_not_space _ Hc). reflexivity.
Qed.

Lemma int_digits_uint (d : uint) :
  d <> Nil -> int_digits (NilEmpty.string_of_uint d) = Some (Z.of_uint d).
Proof.
  intros Hd. unfold int_digits.
  rewrite split_no_sep
    by (apply (all_chars_weaken is_digit);
        auto using is_digit_not_underscore, string_of_uint_digits).
  assert (Hne : nonempty (NilEmpty.string_of_uint d) = true)
    by (destruct d; [congruence | reflexivity ..]).
  cbn [forallb String.concat]. rewrite Hne. cbn [andb].
  rewrite NilEmpty.usu. reflexivity.
Qed.

Lemma all_chars_app p (s t : string) :
  all_chars p (s +:+ t) = all_chars p s && all_chars p t.
Proof.
  induction s as [|c s IH]; simpl; [reflexivity|].
  rewrite IH. apply andb_assoc.
Qed.

Lemma is_digit_ascii c :
  is_digit c = true -> (Z.of_nat (nat_of_ascii c) <? 128) = true.
Proof.
  destruct c as [[|] [|] [|] [|] [|] [|] [|] [|]]; vm_compute; congruence.
Qed.

Lemma isascii_digits (s : string) :
  all_chars is_digit s = true -> isascii s = true.
Proof.
  induction s as [|c s IH]; simpl; [reflexivity|].
  intros [Hc Hs]%andb_prop. rewrite (is_digit_ascii _ Hc), (IH Hs).
  reflexivity.
Qed.

(** What [str] writes is ASCII. *)
Lemma isascii_str (n : Z) : isascii (str n) = true.
Proof.
  unfold str. destruct n as [|p|p]; [reflexivity | |];
    cbn [Z.to_int NilEmpty.string_of_int isascii];
    rewrite isascii_digits by apply string_of_uint_digits; reflexivity.
Qed.

(** An ASCII str is parsed as it is, whatever the Unicode database. *)
Lemma int_ascii (s : string) :
  isascii s = true -> int s = long_from_string s.
Proof. intros H. unfold Py.int. rewrite H. reflexivity. Qed.

(** [int] reads back what [str] writes. *)
Lemma int_str (n : Z) : int (str n) = Ok n.
Proof.
  rewrite int_ascii by apply isascii_str.
  unfold long_from_string, str. destruct n as [|p|p]; [reflexivity | |].
  - cbn [Z.to_int NilEmpty.string_of_int].
    pose proof (string_of_uint_digits (Pos.to_uint p)) as Hd.
    rewrite (lstrip_digits _ Hd), (rstrip_no_space _ (digits_no_space _ Hd)).
    pose proof (int_digits_uint _ (Unsigned.to_uint_nonnil p)) as Hi.
    destruct (NilEmpty.string_of_uint (Pos.to_uint p)) as [|c s] eqn:E.
    + discriminate Hi.
    + assert (Hc : is_digit c = true)
        by (simpl in Hd; apply andb_prop in Hd; tauto).
      assert (c <> "-"%char /\ c <> "+"%char) as [Hm Hp]
        by (split; intros ->; discriminate Hc).
      replace (match String c s with
               | String "-"%char ds => Z.opp <$> int_digits ds
               | String "+"%char ds => int_digits ds
               | _ => int_digits (String c s)
               end) with (int_digits (String c s)).
      * rewrite Hi. unfold Z.of_uint. rewrite Unsigned.of_to. reflexivity.
      * clear -Hm Hp.
        destruct c as [[|] [|] [|] [|] [|] [|] [|] [|]]; congruence.
  - cbn [Z.to_int NilEmpty.string_of_int].
    pose proof (string_of_uint_digits (Pos.to_uint p)) as Hd.
    cbn [lstrip]. change (is_space "-") with false. cbv iota.
    rewrite (rstrip_no_space (String "-" _))
      by (cbn [all_chars]; rewrite (digits_no_space _ Hd); reflexivity).
    rewrite (int_digits_uint _ (Unsigned.to_uint_nonnil p)).
    unfold Z.of_uint. rewrite Unsigned.of_to. reflexivity.
Qed.

(** ** The loop over the days *)

Lemma add_days_app year month (ds1 ds2 : list Z) st :
  add_days year month (ds1 ++ ds2) st
  = (st' <- add_days year month ds1 st ;; add_days year month ds2 st').
Proof.
  revert st. induction ds1 as [|d ds1 IH]; intros st; simpl; [reflexivity|].
  destruct (add_day year month st d); simpl; auto.
Qed.

Lemma add_days_spec year month (ds : list Z) kb cur :
  Forall (fun d => check_date year month d = true) ds ->
  (length cur < 7)%nat ->
  exists kb' cur',
    add_days year month ds (kb, cur) = Ok (kb ++ kb', cur') /\
    Forall (fun row => length row = 7%nat) kb' /\
    (length cur' < 7)%nat /\
    concat kb' ++ cur' = cur ++ (day_cell year month <$> ds).
Proof.
  intros Hds. revert kb cur.
  induction Hds as [|d ds Hd _ IH]; intros kb cur Hcur.
  - exists [], cur. simpl. rewrite !app_nil_r. auto.
  - cbn [add_days add_day]. unfold new_JalaliDate. rewrite Hd.
    cbn [bind]. fold (day_cell year month d).
    destruct (Z.eqb_spec (Z.of_nat (length (cur ++ [day_cell year month d]))) 7)
      as [H7|H7]; rewrite length_app in H7; simpl in H7; cbn [bind].
    + destruct (IH (kb ++ [cur ++ [day_cell year month d]]) []) as
        (kb' & cur' & Hrun & Hrows & Hlen & Hcat); [simpl; lia|].
      exists ((cur ++ [day_cell year month d]) :: kb'), cur'.
      rewrite Hrun, <- app_assoc. repeat split; auto.
      * constructor; [rewrite length_app; simpl; lia | exact Hrows].
      * simpl. rewrite <- !app_assoc. simpl in Hcat. rewrite Hcat.
        reflexivity.
    + destruct (IH kb (cur ++ [day_cell year month d])) as
        (kb' & cur' & Hrun & Hrows & Hlen & Hcat);
        [rewrite length_app; simpl; lia|].
      exists kb', cur'. rewrite Hrun. repeat split; auto.
      rewrite Hcat, <- app_assoc. reflexivity.
Qed.

Lemma getitem_in_range {A} (l : list A) (i : Z) :
  0 <= i < Z.of_nat (length l) ->
  exists x, l !! Z.to_nat i = Some x /\ getitem l i = Ok x.
Proof.
  intros Hi. unfold getitem.
  destruct (Z.ltb_spec i 0); [lia|].
  destruct (Z.leb_spec 0 i); [|lia].
  destruct (Z.ltb_spec i (Z.of_nat (length l))); [|lia].
  destruct (lookup_lt_is_Some_2 l (Z.to_nat i)) as [x Hx]; [lia|].
  exists x. rewrite Hx. auto.
Qed.

Lemma days_in_month_range year month :
  29 <= days_in_month year month <= 31.
Proof.
  unfold days_in_month.
  destruct (month <=? 6); [lia|].
  destruct (month <=? 11); [lia|].
  destruct (is_leap year); simpl; lia.
Qed.

Lemma valid_month_spec year month :
  valid_month year month = true ->
  year <> 0 /\ 1 <= month <= 12 /\
  Forall (fun d => check_date year month d = true)
         (seqZ 1 (days_in_month year month)).
Proof.
  unfold valid_month. rewrite !andb_true_iff, negb_true_iff.
  intros [[[Hy%Z.eqb_neq Hlo%Z.leb_le] Hhi%Z.leb_le] Hall].
  repeat split; try lia.
  apply Forall_forall. intros d Hd%list_elem_of_In.
  rewrite forallb_forall in Hall. auto.
Qed.

(** The keyboard of a valid month: the two header rows, then rows of seven
    cells that hold, in order, the leading blanks, the days 1, 2, ... and the
    trailing blanks. *)
Lemma create_calendar_layout year month :
  valid_month year month = true ->
  exists name rows pad,
    _get_persian_month_name month = Ok name /\
    create_calendar (Some year) (Some month)
    = Ok {| inline_keyboard :=
              header_row year month name :: weekday_row :: rows |} /\
    Forall (fun row => length row = 7%nat) rows /\
    (pad < 7)%nat /\
    concat rows
    = replicate (Z.to_nat (start_weekday
                   {| year := year; month := month; day := 1 |})) blank
      ++ (day_cell year month <$> seqZ 1 (days_in_month year month))
      ++ replicate pad blank.
Proof.
  intros (Hy & Hm & Hall)%valid_month_spec.
  destruct (getitem_in_range months (month - 1)) as (name & _ & Hname);
    [simpl; lia|].
  assert (H1 : check_date year month 1 = true).
  { rewrite Forall_forall in Hall. apply Hall, elem_of_seqZ.
    pose proof (days_in_month_range year month). lia. }
  set (first := {| year := year; month := month; day := 1 |}).
  assert (Hoff : (length (replicate (Z.to_nat (start_weekday first)) blank) < 7)%nat).
  { rewrite length_replicate. unfold start_weekday.
    pose proof (Z.mod_pos_bound (weekday first + 2) 7). lia. }
  destruct (add_days_spec year month _
              [header_row year month name; weekday_row] _ Hall Hoff)
    as (kb' & cur' & Hrun & Hrows & Hlen & Hcat).
  unfold create_calendar, resolve.
  destruct (Z.eqb_spec year 0); [lia|]. destruct (Z.eqb_spec month 0); [lia|].
  cbn [orb]. unfold _get_persian_month_name in *. rewrite Hname. cbn [bind].
  unfold new_JalaliDate at 1. rewrite H1. cbn [bind]. fold first.
  rewrite Hrun. cbn [bind close_row].
  exists name. destruct cur' as [|b cur'].
  - exists kb', 0%nat. rewrite app_nil_r in Hcat. cbn [replicate].
    rewrite !app_nil_r. repeat split; auto; lia.
  - assert (Hpos : (0 < length (b :: cur'))%nat) by (simpl; lia).
    remember (b :: cur') as row eqn:Erow.
    exists (kb' ++ [row ++ replicate (7 - length row) blank]),
      (7 - length row)%nat.
    repeat split; auto.
    + apply Forall_app; split; [exact Hrows|]. constructor; [|constructor].
      rewrite length_app, length_replicate. lia.
    + lia.
    + rewrite concat_app. cbn [concat]. rewrite app_nil_r, app_assoc, Hcat.
      rewrite <- app_assoc. reflexivity.
Qed.

(** ** Cells and rows *)

Lemma str_not_blank (n : Z) : str n <> " ".
Proof.
  intros E. pose proof (str_no_underscore n) as Hn. unfold str in *.
  destruct n as [|p|p]; [discriminate E | | discriminate E].
  pose proof (string_of_uint_digits (Pos.to_uint p)) as Hd.
  cbn [Z.to_int NilEmpty.string_of_int] in E. rewrite E in Hd.
  discriminate Hd.
Qed.

Lemma day_button_not_blank year month day date :
  is_blank (day_button year month day date) = false.
Proof.
  unfold is_blank, day_button. cbn [text].
  destruct (_is_holiday date).
  - reflexivity.
  - apply String.eqb_neq, str_not_blank.
Qed.

Lemma filter_replicate_blank (n : nat) :
  List.filter (fun b => negb (is_blank b)) (replicate n blank) = [].
Proof. induction n as [|n IH]; simpl; auto. Qed.

Lemma filter_day_cells year month (ds : list Z) :
  List.filter (fun b => negb (is_blank b)) (day_cell year month <$> ds)
  = day_cell year month <$> ds.
Proof.
  induction ds as [|d ds IH]; [reflexivity|].
  cbn [fmap list_fmap List.filter]. unfold day_cell at 1.
  rewrite day_button_not_blank. cbn [negb]. f_equal. exact IH.
Qed.

Lemma length_concat_rows {A} (rows : list (list A)) (w : nat) :
  Forall (fun row => length row = w) rows ->
  length (concat rows) = (w * length rows)%nat.
Proof.
  induction 1 as [|row rows Hrow _ IH]; simpl; [lia|].
  rewrite length_app, IH, Hrow. lia.
Qed.

Lemma ceil_div_7 (cells rows pad : Z) :
  7 * rows = cells + pad -> 0 <= pad < 7 -> ceil_div cells 7 = rows.
Proof.
  intros Hc Hp. unfold ceil_div. symmetry.
  apply (Z.div_unique _ _ _ (6 - pad)); lia.
Qed.

(** [ceil_div a 7] is the ceiling of [a / 7]: the least number of rows of
    seven cells that hold [a] cells. *)
Lemma ceil_div_least (a : Z) :
  a <= 7 * ceil_div a 7 /\ forall k, a <= 7 * k -> ceil_div a 7 <= k.
Proof.
  unfold ceil_div. split.
  - pose proof (Z.mul_div_le (a + 7 - 1) 7).
    pose proof (Z.mod_pos_bound (a + 7 - 1) 7).
    pose proof (Z.div_mod (a + 7 - 1) 7). lia.
  - intros k Hk. apply Z.lt_succ_r, Z.div_lt_upper_bound; lia.
Qed.

Lemma layout_day_lookup year month (cells : list InlineKeyboardButton)
    (off pad : nat) (total d : Z) :
  cells = replicate off blank ++ (day_cell year month <$> seqZ 1 total)
          ++ replicate pad blank ->
  1 <= d <= total ->
  cells !! (off + Z.to_nat (d - 1))%nat = Some (day_cell year month d).
Proof.
  intros -> Hd.
  rewrite lookup_app_r by (rewrite length_replicate; lia).
  rewrite length_replicate.
  replace (off + Z.to_nat (d - 1) - off)%nat with (Z.to_nat (d - 1)) by lia.
  rewrite lookup_app_l by (rewrite length_fmap, length_seqZ; lia).
  rewrite list_lookup_fmap, lookup_seqZ_lt by lia.
  cbn [fmap option_fmap option_map]. do 2 f_equal. lia.
Qed.

Lemma layout_blank_lookup year month (cells : list InlineKeyboardButton)
    (off pad i : nat) (total : Z) :
  cells = replicate off blank ++ (day_cell year month <$> seqZ 1 total)
          ++ replicate pad blank ->
  (i < off)%nat ->
  cells !! i = Some blank.
Proof.
  intros -> Hi.
  rewrite lookup_app_l by (rewrite length_replicate; lia).
  apply lookup_replicate_2, Hi.
Qed.

Lemma first_row_lookup {A} (row : list A) (rows : list (list A)) (i : nat) :
  (i < length row)%nat -> row !! i = concat (row :: rows) !! i.
Proof. intros Hi. cbn [concat]. rewrite lookup_app_l by exact Hi. reflexivity. Qed.

(** ** The grid builder *)

(** C1. For a valid year and month, [create_calendar] returns a keyboard
    with 2 + ceil((offset + total) / 7) rows, where offset is the column of
    day 1 and total the number of days of the month; every row under the two
    header rows has exactly 7 cells; the cells of these rows that are not
    blank are as many as the days of the month; and every blank cell carries
    the token "ignore". *)
Theorem create_calendar_grid (year month : Z) :
  valid_month year month = true ->
  exists markup,
    create_calendar (Some year) (Some month) = Ok markup /\
    Z.of_nat (length (inline_keyboard markup))
    = 2 + ceil_div (start_weekday {| year := year; month := month; day := 1 |}
                    + days_in_month year month) 7 /\
    Forall (fun row => length row = 7%nat) (day_rows markup) /\
    Z.of_nat (length (List.filter (fun b => negb (is_blank b))
                        (concat (day_rows markup))))
    = days_in_month year month /\
    Forall (fun b => is_blank b = true -> callback_data b = "ignore")
           (concat (day_rows markup)).
Proof.
  intros Hvalid.
  destruct (create_calendar_layout year month Hvalid)
    as (name & rows & pad & _ & Hrun & Hrows & Hpad & Hcat).
  pose proof (days_in_month_range year month) as Hdays.
  set (first := {| year := year; month := month; day := 1 |}) in *.
  assert (Hoff : 0 <= start_weekday first < 7)
    by (apply Z.mod_pos_bound; lia).
  eexists. split; [exact Hrun|].
  unfold day_rows. cbn [inline_keyboard drop length].
  change (drop 0 rows) with rows.
  pose proof (length_concat_rows rows 7 Hrows) as Hlen.
  rewrite Hcat, !length_app, !length_replicate, length_fmap, length_seqZ in Hlen.
  repeat split.
  - rewrite (ceil_div_7 _ (Z.of_nat (length rows)) (Z.of_nat pad)); lia.
  - exact Hrows.
  - rewrite Hcat, !List.filter_app, !filter_replicate_blank, filter_day_cells.
    rewrite app_nil_r. cbn [app]. rewrite length_fmap, length_seqZ. lia.
  - rewrite Hcat. rewrite !Forall_app. repeat split.
    + apply Forall_replicate. reflexivity.
    + apply Forall_fmap, Forall_forall. intros d _. unfold day_cell. simpl.
      rewrite day_button_not_blank. discriminate.
    + apply Forall_replicate. reflexivity.
Qed.

(** ** Calendar math *)

(** C2. For every year and every month from 1 to 12, the month has 31 days
    when it is one of the months 1 to 6, 30 days when it is one of the months
    7 to 11, and month 12 has 30 days in a leap year and 29 otherwise. *)
Theorem days_in_month_rule (year month : Z) :
  1 <= month <= 12 ->
  (1 <= month <= 6 /\ days_in_month year month = 31) \/
  (7 <= month <= 11 /\ days_in_month year month = 30) \/
  (month = 12 /\ is_leap year = true /\ days_in_month year month = 30) \/
  (month = 12 /\ is_leap year = false /\ days_in_month year month = 29).
Proof.
  intros Hm. unfold days_in_month.
  destruct (Z.leb_spec month 6); [left; lia|].
  destruct (Z.leb_spec month 11); [right; left; lia|].
  destruct (is_leap year) eqn:Hleap; cbn [negb].
  - right; right; left. repeat split; lia.
  - right; right; right. repeat split; lia.
Qed.

(** ** The holiday classifier *)

(** C4. A date is a holiday exactly when its unpadded key
    "{year}/{month}/{day}" is a key of the holiday mapping or its Gregorian
    weekday is 4 (Friday, with Monday as 0); either criterion suffices. *)
Theorem is_holiday_iff (date : JalaliDate) :
  _is_holiday date = true <->
  is_Some (holidays !! (str (year date) +:+ "/" +:+ str (month date)
                        +:+ "/" +:+ str (day date)))
  \/ weekday date = 4.
Proof.
  unfold _is_holiday, date_str.
  rewrite orb_true_iff, bool_decide_eq_true, Z.eqb_eq. reflexivity.
Qed.

(** C5. For a valid year and month, the column of day 1 in the first row of
    days is (w + 2) mod 7, where w is the weekday (Monday 0 .. Sunday 6) of
    the Gregorian date of day 1: the cells before that column are blank, the
    cell at that column is the one of day 1, and the column lies in 0..6. *)
Theorem first_day_column (year month : Z) :
  valid_month year month = true ->
  let offset := (weekday {| year := year; month := month; day := 1 |} + 2) mod 7 in
  0 <= offset <= 6 /\
  exists markup row,
    create_calendar (Some year) (Some month) = Ok markup /\
    day_rows markup !! 0%nat = Some row /\
    row !! Z.to_nat offset = Some (day_cell year month 1) /\
    forall i, (i < Z.to_nat offset)%nat -> row !! i = Some blank.
Proof.
  intros Hvalid offset.
  assert (Hoff : 0 <= offset < 7) by (apply Z.mod_pos_bound; lia).
  split; [lia|].
  destruct (create_calendar_layout year month Hvalid)
    as (name & rows & pad & _ & Hrun & Hrows & Hpad & Hcat).
  unfold start_weekday in Hcat. fold offset in Hcat.
  pose proof (days_in_month_range year month) as Hdays.
  pose proof (length_concat_rows rows 7 Hrows) as Hlen.
  rewrite Hcat, !length_app, !length_replicate, length_fmap, length_seqZ in Hlen.
  destruct rows as [|row rows]; [simpl in Hlen; lia|].
  apply Forall_cons in Hrows as [Hrow _].
  exists {| inline_keyboard := header_row year month name :: weekday_row :: row :: rows |}, row.
  repeat split; [exact Hrun | ..].
  - rewrite first_row_lookup with (rows := rows) by lia.
    replace (Z.to_nat offset) with (Z.to_nat offset + Z.to_nat (1 - 1))%nat
      by lia.
    apply (layout_day_lookup _ _ _ _ _ _ _ Hcat). lia.
  - intros i Hi. rewrite first_row_lookup with (rows := rows) by lia.
    apply (layout_blank_lookup _ _ _ _ _ _ _ Hcat Hi).
Qed.

(** ** The interaction decoder *)

Lemma split_day_token (year month day : Z) :
  no_underscore callback_pattern = true ->
  split "_" (day_token year month day)
  = [callback_pattern; "day"; str year; str month; str day].
Proof.
  intros Hp. unfold day_token.
  change ("_day_" +:+ ?r) with ("_" +:+ "day" +:+ "_" +:+ r).
  rewrite (split_app_field "_" callback_pattern) by exact Hp.
  rewrite (split_app_field "_" "day") by reflexivity.
  rewrite !(split_app_field "_" (str _)) by apply str_no_underscore.
  rewrite split_no_sep by apply str_no_underscore.
  reflexivity.
Qed.

Lemma split_nav_token (action : string) (year month : Z) :
  no_underscore callback_pattern = true ->
  no_underscore action = true ->
  split "_" (nav_token action year month)
  = [callback_pattern; action; str year; str month].
Proof.
  intros Hp Ha. unfold nav_token.
  rewrite (split_app_field "_" callback_pattern) by exact Hp.
  rewrite (split_app_field "_" action) by exact Ha.
  rewrite (split_app_field "_" (str _)) by apply str_no_underscore.
  rewrite split_no_sep by apply str_no_underscore.
  reflexivity.
Qed.

(** Decoding a day action: the three fields are parsed and formatted again,
    whatever the numbers. *)
Lemma process_selection_day_fields (fy fm fd : string) (y m d : Z) :
  no_underscore callback_pattern = true ->
  no_underscore fy = true -> no_underscore fm = true ->
  no_underscore fd = true ->
  int fy = Ok y -> int fm = Ok m -> int fd = Ok d ->
  process_selection
    (callback_pattern +:+ "_day_" +:+ fy +:+ "_" +:+ fm +:+ "_" +:+ fd)
  = ([answer], Ok (Some (str y +:+ "/" +:+ str m +:+ "/" +:+ str d))).
Proof.
  intros Hp Hfy Hfm Hfd Hy Hm Hd. unfold process_selection.
  rewrite startswith_app.
  change ("_day_" +:+ ?r) with ("_" +:+ "day" +:+ "_" +:+ r).
  rewrite (split_app_field "_" callback_pattern) by exact Hp.
  rewrite (split_app_field "_" "day") by reflexivity.
  rewrite (split_app_field "_" fy), (split_app_field "_" fm) by assumption.
  rewrite (split_no_sep "_" fd) by exact Hfd.
  cbn [negb getitem length lift then_ call drop unpack3].
  rewrite Hy, Hm, Hd. reflexivity.
Qed.

Lemma process_selection_day_token (year month day : Z) :
  no_underscore callback_pattern = true ->
  process_selection (day_token year month day)
  = ([answer], Ok (Some (str year +:+ "/" +:+ str month +:+ "/" +:+ str day))).
Proof.
  intros Hp. unfold day_token.
  apply process_selection_day_fields;
    auto using str_no_underscore, int_str.
Qed.

(** Decoding a navigation token: the neighbouring month is rendered again. *)
Lemma process_selection_nav_token (action : string) (year month : Z) :
  no_underscore callback_pattern = true ->
  action = "prev" \/ action = "next" ->
  process_selection (nav_token action year month)
  = let '(y, m) := navigate action year month in re_render y m.
Proof.
  intros Hp Ha. unfold process_selection.
  rewrite split_nav_token
    by (try exact Hp; destruct Ha as [-> | ->]; reflexivity).
  unfold nav_token. rewrite startswith_app.
  assert (Hact : (String.eqb action "ignore" || negb (nonempty action) = false)
                 /\ String.eqb action "prev" || String.eqb action "next" = true)
    by (destruct Ha as [-> | ->]; split; reflexivity).
  destruct Hact as [Hign Hnav].
  cbn [negb lift then_ call drop unpack2].
  rewrite !int_str.
  change (getitem [callback_pattern; action; str year; str month] 1)
    with (Ok action).
  cbv beta iota. rewrite Hign, Hnav. cbn [bind fst snd].
  destruct (navigate action year month) as [y m].
  unfold re_render.
  destruct (create_calendar (Some y) (Some m)); reflexivity.
Qed.

Lemma int_cases (s : string) :
  (exists n, int s = Ok n) \/ int s = Raise ValueError.
Proof.
  unfold Py.int, long_from_string.
  set (a := if isascii s then s else unicode_to_ascii s).
  destruct (match rstrip (lstrip a) with
            | String "-"%char ds => Z.opp <$> int_digits ds
            | String "+"%char ds => int_digits ds
            | _ => int_digits (rstrip (lstrip a))
            end) as [n|]; eauto.
Qed.

Ltac case_int s :=
  let n := fresh "n" in
  let E := fresh "E" in
  destruct (int_cases s) as [[n E] | E]; rewrite E; cbn [bind].

Lemma unpack2_malformed (fields : list string) :
  Exists (fun field => int field = Raise ValueError) fields
  \/ length fields <> 2%nat ->
  unpack2 fields = Raise ValueError.
Proof.
  destruct fields as [|a [|b [|c rest]]]; cbn [unpack2 length];
    intros H; try reflexivity.
  - case_int a; reflexivity.
  - case_int a; [|reflexivity]. case_int b; [|reflexivity].
    destruct H as [H | H]; [|lia].
    apply Exists_cons in H as [H | H]; [congruence|].
    apply Exists_cons in H as [H | H]; [congruence|].
    inversion H.
  - case_int a; [|reflexivity]. case_int b; [|reflexivity].
    case_int c; reflexivity.
Qed.

Lemma unpack3_malformed (fields : list string) :
  Exists (fun field => int field = Raise ValueError) fields
  \/ length fields <> 3%nat ->
  unpack3 fields = Raise ValueError.
Proof.
  destruct fields as [|a [|b [|c [|d rest]]]]; cbn [unpack3 length];
    intros H; try reflexivity.
  - case_int a; reflexivity.
  - case_int a; [|reflexivity]. case_int b; reflexivity.
  - case_int a; [|reflexivity]. case_int b; [|reflexivity].
    case_int c; [|reflexivity].
    destruct H as [H | H]; [|lia].
    apply Exists_cons in H as [H | H]; [congruence|].
    apply Exists_cons in H as [H | H]; [congruence|].
    apply Exists_cons in H as [H | H]; [congruence|].
    inversion H.
  - case_int a; [|reflexivity]. case_int b; [|reflexivity].
    case_int c; [|reflexivity]. case_int d; reflexivity.
Qed.

(** C3. Round trip: with a token prefix that has no underscore, for a valid
    year Y and month M and a day d of that month, the cell that
    [create_calendar] builds for day d carries a token which
    [process_selection] decodes to exactly "{Y}/{M}/{d}", in decimal without
    leading zeros. *)
Theorem day_token_round_trip (year month d : Z) :
  no_underscore callback_pattern = true ->
  valid_month year month = true ->
  1 <= d <= days_in_month year month ->
  exists markup cell,
    create_calendar (Some year) (Some month) = Ok markup /\
    concat (day_rows markup)
      !! (Z.to_nat (start_weekday {| year := year; month := month; day := 1 |})
          + Z.to_nat (d - 1))%nat = Some cell /\
    (text cell = str d \/ text cell = "🔴" +:+ str d) /\
    callback_data cell = day_token year month d /\
    process_selection (callback_data cell)
    = ([answer],
       Ok (Some (str year +:+ "/" +:+ str month +:+ "/" +:+ str d))).
Proof.
  intros Hp Hvalid Hd.
  destruct (create_calendar_layout year month Hvalid)
    as (name & rows & pad & _ & Hrun & _ & _ & Hcat).
  eexists _, (day_cell year month d). split; [exact Hrun|].
  unfold day_rows. cbn [inline_keyboard drop].
  change (drop 0 rows) with rows.
  split; [apply (layout_day_lookup _ _ _ _ _ _ _ Hcat Hd)|].
  split; [unfold day_cell, day_button; cbn [text];
          destruct (_is_holiday _); auto|].
  split; [reflexivity|].
  apply process_selection_day_token, Hp.
Qed.

(** C6. Navigation, with a token prefix that has no underscore: the next
    token of (Y, 12) re-renders (Y+1, 1) and the prev token of (Y, 1)
    re-renders (Y-1, 12); for the other months m of 1..12, next re-renders
    (Y, m+1) and prev re-renders (Y, m-1). A re-render never returns a
    selection, and for a valid month it sends that month's keyboard. *)
Theorem navigation_wrap (Y m : Z) :
  no_underscore callback_pattern = true ->
  1 <= m <= 12 ->
  process_selection (nav_token "next" Y 12) = re_render (Y + 1) 1 /\
  process_selection (nav_token "prev" Y 1) = re_render (Y - 1) 12 /\
  (m <> 12 -> process_selection (nav_token "next" Y m) = re_render Y (m + 1)) /\
  (m <> 1 -> process_selection (nav_token "prev" Y m) = re_render Y (m - 1)) /\
  (forall y' m' s, snd (re_render y' m') <> Ok (Some s)) /\
  (forall y' m', valid_month y' m' = true ->
     exists markup, create_calendar (Some y') (Some m') = Ok markup /\
       re_render y' m' = ([answer; edit_message_reply_markup markup], Ok None)).
Proof.
  intros Hp Hm.
  repeat split.
  - rewrite process_selection_nav_token by auto. reflexivity.
  - rewrite process_selection_nav_token by auto. reflexivity.
  - intros Hne. rewrite process_selection_nav_token by auto.
    unfold navigate. cbn [String.eqb Ascii.eqb Bool.eqb].
    destruct (Z.gtb_spec (m + 1) 12); [lia | reflexivity].
  - intros Hne. rewrite process_selection_nav_token by auto.
    unfold navigate. cbn [String.eqb Ascii.eqb Bool.eqb].
    destruct (Z.ltb_spec (m - 1) 1); [lia | reflexivity].
  - intros y' m' s. unfold re_render.
    destruct (create_calendar (Some y') (Some m')); discriminate.
  - intros y' m' Hvalid.
    destruct (create_calendar_layout y' m' Hvalid)
      as (name & rows & pad & _ & Hrun & _).
    eexists. split; [exact Hrun|]. unfold re_render. rewrite Hrun. reflexivity.
Qed.

(** What the guard of line 172 does give: a token that does not start with
    the text of the configured prefix is a no-op: the query is answered,
    nothing is rendered and None is returned. *)
Lemma prefix_isolation (data : string) :
  startswith data callback_pattern = false ->
  process_selection data = ([answer], Ok None).
Proof.
  intros Hs. unfold process_selection. rewrite Hs. reflexivity.
Qed.

Lemma append_assoc (a b c : string) : (a +:+ b) +:+ c = a +:+ b +:+ c.
Proof.
  induction a as [|x a IH]; [reflexivity|].
  change (String x ((a +:+ b) +:+ c) = String x (a +:+ b +:+ c)).
  congruence.
Qed.

Lemma append_nil_r (a : string) : a +:+ "" = a.
Proof.
  induction a as [|x a IH]; [reflexivity|].
  change (String x (a +:+ "") = String x a). congruence.
Qed.

(** C7, where the code breaks it. The guard compares the beginning of the
    token with the configured prefix, not the prefix field of the token: a
    day token of another picker, whose prefix is the configured one followed
    by more characters, has a prefix field that differs from the configured
    prefix and is decoded all the same, to a date. *)
Theorem longer_prefix_not_isolated (ext : string) (y m d : Z) :
  no_underscore callback_pattern = true ->
  no_underscore ext = true ->
  ext <> "" ->
  let data := (callback_pattern +:+ ext) +:+ "_day_" +:+ str y +:+ "_"
              +:+ str m +:+ "_" +:+ str d in
  getitem (split "_" data) 0 = Ok (callback_pattern +:+ ext) /\
  callback_pattern +:+ ext <> callback_pattern /\
  process_selection data
  = ([answer], Ok (Some (str y +:+ "/" +:+ str m +:+ "/" +:+ str d))).
Proof.
  intros Hp Hext Hne data.
  assert (Hpre : no_underscore (callback_pattern +:+ ext) = true).
  { unfold no_underscore. rewrite all_chars_app.
    apply andb_true_intro. split; assumption. }
  assert (Hsplit : split "_" data
                   = [callback_pattern +:+ ext; "day"; str y; str m; str d]).
  { unfold data.
    change ("_day_" +:+ ?r) with ("_" +:+ "day" +:+ "_" +:+ r).
    rewrite (split_app_field "_" (callback_pattern +:+ ext)) by exact Hpre.
    rewrite (split_app_field "_" "day") by reflexivity.
    rewrite !(split_app_field "_" (str _)) by apply str_no_underscore.
    rewrite split_no_sep by apply str_no_underscore. reflexivity. }
  split; [rewrite Hsplit; reflexivity|].
  split.
  - intros Heq. apply Hne.
    assert (Heq' : callback_pattern +:+ ext = callback_pattern +:+ "")
      by (rewrite append_nil_r; exact Heq).
    apply String.app_inj in Heq'. exact Heq'.
  - unfold process_selection. rewrite Hsplit.
    unfold data. rewrite append_assoc, startswith_app.
    cbn [negb getitem length lift then_ call drop unpack3].
    rewrite !int_str. reflexivity.
Qed.

(** C8. A token with the configured prefix and one of the actions prev,
    next and day, of which a numeric field is malformed, that is, rejected by
    [int] (or of which the number of fields is wrong), makes
    [process_selection] raise ValueError to its caller: no keyboard is
    rendered and no date is returned. This holds for every field, ASCII or
    not, and whatever the Unicode database reads as a digit. *)
Theorem malformed_token_raises (data action : string) :
  startswith data callback_pattern = true ->
  getitem (split "_" data) 1 = Ok action ->
  action = "prev" \/ action = "next" \/ action = "day" ->
  Exists malformed (drop 2 (split "_" data))
  \/ length (drop 2 (split "_" data)) <> arity action ->
  process_selection data = ([answer], Raise ValueError).
Proof.
  intros Hs Hact Hkind Hbad.
  assert (Hbad' :
    Exists (fun field => int field = Raise ValueError) (drop 2 (split "_" data))
    \/ length (drop 2 (split "_" data)) <> arity action)
    by exact Hbad.
  clear Hbad. unfold process_selection.
  rewrite Hs, Hact. cbn [negb lift then_ call].
  destruct Hkind as [-> | [-> | ->]];
    cbn [String.eqb Ascii.eqb Bool.eqb orb negb nonempty]; cbv beta iota.
  - rewrite (unpack2_malformed _ Hbad'). reflexivity.
  - rewrite (unpack2_malformed _ Hbad'). reflexivity.
  - rewrite (unpack3_malformed _ Hbad'). reflexivity.
Qed.

(** C10. With a token prefix that has no underscore, a token
    "{prefix}_day_{y}_{m}_{d}" whose three fields parse as the integers y, m
    and d is decoded to "{y}/{m}/{d}", whatever the integers: the decoder
    does not check that they form a date of the calendar. *)
Theorem day_token_not_validated (fy fm fd : string) (y m d : Z) :
  no_underscore callback_pattern = true ->
  no_underscore fy = true -> no_underscore fm = true ->
  no_underscore fd = true ->
  int fy = Ok y -> int fm = Ok m -> int fd = Ok d ->
  process_selection
    (callback_pattern +:+ "_day_" +:+ fy +:+ "_" +:+ fm +:+ "_" +:+ fd)
  = ([answer], Ok (Some (str y +:+ "/" +:+ str m +:+ "/" +:+ str d))).
Proof. apply process_selection_day_fields. Qed.

(** ** The label tables *)

Lemma getitem_spec {A} `{Inhabited A} (l : list A) (i : Z) :
  getitem l i =
  if decide (0 <= i < Z.of_nat (length l)) then Ok (l !!! Z.to_nat i)
  else if decide (- Z.of_nat (length l) <= i < 0)
       then Ok (l !!! Z.to_nat (i + Z.of_nat (length l)))
       else Raise IndexError.
Proof.
  unfold getitem.
  destruct (decide (0 <= i < Z.of_nat (length l))) as [Hin|Hout].
  - destruct (Z.ltb_spec i 0); [lia|].
    destruct (Z.leb_spec 0 i); [|lia].
    destruct (Z.ltb_spec i (Z.of_nat (length l))); [|lia]. cbn [andb].
    destruct (lookup_lt_is_Some_2 l (Z.to_nat i)) as [x Hx]; [lia|].
    rewrite Hx, (list_lookup_total_correct _ _ _ Hx). reflexivity.
  - destruct (decide (- Z.of_nat (length l) <= i < 0)) as [Hneg|Hfar].
    + destruct (Z.ltb_spec i 0); [|lia].
      destruct (Z.leb_spec 0 (i + Z.of_nat (length l))); [|lia].
      destruct (Z.ltb_spec (i + Z.of_nat (length l)) (Z.of_nat (length l)));
        [|lia]. cbn [andb].
      destruct (lookup_lt_is_Some_2 l (Z.to_nat (i + Z.of_nat (length l))))
        as [x Hx]; [lia|].
      rewrite Hx, (list_lookup_total_correct _ _ _ Hx). reflexivity.
    + destruct (Z.ltb_spec i 0).
      * destruct (Z.leb_spec 0 (i + Z.of_nat (length l))); [lia|reflexivity].
      * destruct (Z.leb_spec 0 i); [|lia].
        destruct (Z.ltb_spec i (Z.of_nat (length l))); [lia|reflexivity].
Qed.

(** C9, as the code has it. [_get_persian_month_name(month)] returns the
    entry at index month-1 for a month in 1..12 and the entry at index
    month+11 for a month in -11..0 (a negative subscript counts from the end
    of the table); it fails, with IndexError, exactly for month > 12 and
    month < -11. *)
Theorem month_name_lookup (month : Z) :
  _get_persian_month_name month =
    (if decide (1 <= month <= 12) then Ok (months !!! Z.to_nat (month - 1))
     else if decide (-11 <= month <= 0)
          then Ok (months !!! Z.to_nat (month + 11))
          else Raise IndexError).
Proof.
  unfold _get_persian_month_name. rewrite getitem_spec.
  change (Z.of_nat (length months)) with 12.
  repeat case_decide; try lia; try reflexivity.
  do 2 f_equal. lia.
Qed.

(** ** Further properties of the decoder *)

(** The four ways in which [process_selection] ends. *)
Lemma process_selection_cases (data : string) :
  (exists r, process_selection data = ([answer], r)
             /\ (r = Ok None \/ exists e, r = Raise e)) \/
  (exists markup,
     process_selection data
     = ([answer; edit_message_reply_markup markup], Ok None)) \/
  (exists y m d,
     unpack3 (drop 2 (split "_" data)) = Ok (y, m, d) /\
     process_selection data
     = ([answer], Ok (Some (str y +:+ "/" +:+ str m +:+ "/" +:+ str d)))).
Proof.
  unfold process_selection.
  destruct (startswith data callback_pattern); cbn [negb lift then_ call];
    [|left; eexists; split; [reflexivity | auto]].
  destruct (getitem (split "_" data) 1) as [action|e];
    [|left; eexists; split; [reflexivity | eauto]].
  destruct (String.eqb action "ignore" || negb (nonempty action));
    [left; eexists; split; [reflexivity | auto]|].
  destruct (String.eqb action "prev" || String.eqb action "next").
  - destruct (unpack2 (drop 2 (split "_" data))) as [[y m]|e];
      [|left; eexists; split; [reflexivity | eauto]].
    cbn [fst snd]. destruct (navigate action y m) as [y' m'].
    destruct (create_calendar (Some y') (Some m')) as [markup|e].
    + right; left. exists markup. reflexivity.
    + left; eexists; split; [reflexivity | eauto].
  - destruct (String.eqb action "day");
      [|left; eexists; split; [reflexivity | auto]].
    destruct (unpack3 (drop 2 (split "_" data))) as [[[y m] d]|e] eqn:E.
    + right; right. exists y, m, d. split; reflexivity.
    + left; eexists; split; [reflexivity | eauto].
Qed.

(** X1. [process_selection] answers the query first, whatever the token;
    after that it either does nothing more, or replaces the keyboard once and
    returns None. It never replaces the keyboard and returns a date. *)
Theorem process_selection_effects (data : string) :
  (exists r, process_selection data = ([answer], r)) \/
  (exists markup,
     process_selection data
     = ([answer; edit_message_reply_markup markup], Ok None)).
Proof.
  destruct (process_selection_cases data)
    as [(r & H & _) | [(markup & H) | (y & m & d & _ & H)]]; eauto.
Qed.

(** X2. A token without any underscore that starts with the configured
    prefix has no action field: [process_selection] raises IndexError. This
    includes the token "ignore" of the blank cells and of the labels when the
    configured prefix is the empty string or another beginning of "ignore";
    with any other prefix such a token is a no-op. *)
Theorem token_without_action (data : string) :
  no_underscore data = true ->
  process_selection data =
  if startswith data callback_pattern then ([answer], Raise IndexError)
  else ([answer], Ok None).
Proof.
  intros Hdata. unfold process_selection.
  destruct (startswith data callback_pattern); [|reflexivity].
  rewrite (split_no_sep "_" data Hdata). reflexivity.
Qed.

(** X3. A token with the configured prefix whose action field is none of
    prev, next and day (so also the actions "ignore" and the empty one) is a
    no-op, whatever follows the action. *)
Theorem unknown_action_is_noop (data action : string) :
  startswith data callback_pattern = true ->
  getitem (split "_" data) 1 = Ok action ->
  action <> "prev" -> action <> "next" -> action <> "day" ->
  process_selection data = ([answer], Ok None).
Proof.
  intros Hs Hact Hp Hn Hd. unfold process_selection.
  rewrite Hs, Hact. cbn [negb lift then_ call].
  apply String.eqb_neq in Hp, Hn, Hd. rewrite Hp, Hn, Hd.
  destruct (String.eqb action "ignore" || negb (nonempty action)); reflexivity.
Qed.

Lemma str_without (c : Ascii.ascii) (n : Z) :
  is_digit c = false -> c <> "-"%char ->
  all_chars (not_char c) (str n) = true.
Proof.
  intros Hc Hminus.
  assert (Hd : forall x, is_digit x = true -> not_char c x = true).
  { intros x Hx. unfold not_char. apply negb_true_iff, Ascii.eqb_neq.
    intros ->. congruence. }
  unfold str. destruct n as [|p|p]; cbn [Z.to_int NilEmpty.string_of_int].
  - apply (all_chars_weaken is_digit); auto.
  - apply (all_chars_weaken is_digit); auto using string_of_uint_digits.
  - cbn [all_chars]. apply andb_true_intro. split.
    + unfold not_char. apply negb_true_iff, Ascii.eqb_neq. congruence.
    + apply (all_chars_weaken is_digit); auto using string_of_uint_digits.
Qed.

(** The date string splits at its slashes into the three numbers. *)
Lemma split_date_string (y m d : Z) :
  split "/" (str y +:+ "/" +:+ str m +:+ "/" +:+ str d)
  = [str y; str m; str d].
Proof.
  rewrite !(split_app_field "/" (str _))
    by (apply str_without; [reflexivity | discriminate]).
  rewrite split_no_sep by (apply str_without; [reflexivity | discriminate]).
  reflexivity.
Qed.

(** X4. Whenever [process_selection] returns a string, it has only answered
    the query, and the string reads back: split at "/", it has exactly three
    fields, and they are the numbers that [int] reads from the fields of the
    token after the action, of which there are exactly three. *)
Theorem selection_reads_back (data s : string) (effects : list effect) :
  process_selection data = (effects, Ok (Some s)) ->
  effects = [answer] /\
  exists y m d,
    int <$> drop 2 (split "_" data) = [Ok y; Ok m; Ok d] /\
    int <$> split "/" s = [Ok y; Ok m; Ok d].
Proof.
  intros Hrun.
  destruct (process_selection_cases data)
    as [(r & H & Hr) | [(markup & H) | (y & m & d & Hfields & H)]];
    rewrite H in Hrun.
  - destruct Hr as [-> | [e ->]]; discriminate Hrun.
  - discriminate Hrun.
  - injection Hrun as <- <-. split; [reflexivity|].
    exists y, m, d. split.
    + destruct (drop 2 (split "_" data)) as [|a [|b [|c [|x rest]]]];
        cbn [unpack3] in Hfields; try discriminate Hfields.
      * destruct (int a); discriminate Hfields.
      * destruct (int a); [|discriminate Hfields].
        destruct (int b); discriminate Hfields.
      * cbn [fmap list_fmap].
        destruct (int a) as [y0|]; [|discriminate Hfields].
        destruct (int b) as [m0|]; [|discriminate Hfields].
        destruct (int c) as [d0|]; [|discriminate Hfields].
        cbn [bind] in Hfields. injection Hfields as -> -> ->. reflexivity.
      * destruct (int a); [|discriminate Hfields].
        destruct (int b); [|discriminate Hfields].
        destruct (int c); [|discriminate Hfields].
        destruct (int x); discriminate Hfields.
    + rewrite split_date_string. cbn [fmap list_fmap].
      rewrite !int_str. reflexivity.
Qed.

Lemma resolve_falsy (year_arg month_arg : option Z) :
  falsy year_arg || falsy month_arg = true ->
  resolve year_arg month_arg = (year today, month today).
Proof.
  unfold resolve, falsy.
  destruct year_arg as [y|], month_arg as [m|]; try reflexivity.
  intros ->. reflexivity.
Qed.

Lemma resolve_today :
  resolve (Some (year today)) (Some (month today)) = (year today, month today).
Proof.
  unfold resolve.
  destruct ((year today =? 0) || (month today =? 0)); reflexivity.
Qed.

Lemma create_calendar_falsy (year_arg month_arg : option Z) :
  falsy year_arg || falsy month_arg = true ->
  create_calendar year_arg month_arg
  = create_calendar (Some (year today)) (Some (month today)).
Proof.
  intros H. unfold create_calendar.
  rewrite (resolve_falsy _ _ H), resolve_today. reflexivity.
Qed.

Lemma navigate_next (y m : Z) :
  navigate "next" y m = if 12 <=? m then (y + 1, 1) else (y, m + 1).
Proof.
  unfold navigate. cbn [String.eqb Ascii.eqb Bool.eqb].
  destruct (Z.gtb_spec (m + 1) 12), (Z.leb_spec 12 m); try lia; reflexivity.
Qed.

Lemma navigate_prev (y m : Z) :
  navigate "prev" y m = if m <=? 1 then (y - 1, 12) else (y, m - 1).
Proof.
  unfold navigate. cbn [String.eqb Ascii.eqb Bool.eqb].
  destruct (Z.ltb_spec (m - 1) 1), (Z.leb_spec m 1); try lia; reflexivity.
Qed.

(** X5. Pressing next and then prev, or prev and then next, comes back:
    for a month of 1..12, the prev token of the month that next leads to
    re-renders the month one started from, and the other way round. *)
Theorem next_prev_round_trip (y m : Z) :
  no_underscore callback_pattern = true ->
  1 <= m <= 12 ->
  process_selection (nav_token "prev" (navigate "next" y m).1
                                      (navigate "next" y m).2)
  = re_render y m /\
  process_selection (nav_token "next" (navigate "prev" y m).1
                                      (navigate "prev" y m).2)
  = re_render y m.
Proof.
  intros Hp Hm. rewrite !process_selection_nav_token by auto.
  split.
  - rewrite navigate_next.
    destruct (Z.leb_spec 12 m); cbn [fst snd]; rewrite navigate_prev.
    + cbn. replace (y + 1 - 1) with y by lia. replace m with 12 by lia.
      reflexivity.
    + destruct (Z.leb_spec (m + 1) 1); [lia|].
      replace (m + 1 - 1) with m by lia. reflexivity.
  - rewrite navigate_prev.
    destruct (Z.leb_spec m 1); cbn [fst snd]; rewrite navigate_next.
    + cbn. replace (y - 1 + 1) with y by lia. replace m with 1 by lia.
      reflexivity.
    + destruct (Z.leb_spec 12 (m - 1)); [lia|].
      replace (m - 1 + 1) with m by lia. reflexivity.
Qed.

(** X6. The decoder does not check the month of a navigation token: for
    every integer month, next re-renders (y+1, 1) when the month is 12 or
    more and (y, month+1) otherwise, and prev re-renders (y-1, 12) when the
    month is 1 or less and (y, month-1) otherwise. *)
Theorem navigation_any_month (y m : Z) :
  no_underscore callback_pattern = true ->
  process_selection (nav_token "next" y m)
  = (if 12 <=? m then re_render (y + 1) 1 else re_render y (m + 1)) /\
  process_selection (nav_token "prev" y m)
  = (if m <=? 1 then re_render (y - 1) 12 else re_render y (m - 1)).
Proof.
  intros Hp. rewrite !process_selection_nav_token by auto.
  rewrite navigate_next, navigate_prev.
  split.
  - destruct (12 <=? m); reflexivity.
  - destruct (m <=? 1); reflexivity.
Qed.

(** X7. A navigation that arrives at year 0 does not render a month of year
    0: [create_calendar] takes the year 0 for a missing argument, and the
    month of today is rendered. *)
Theorem navigation_to_year_zero (action : string) (y m : Z) :
  no_underscore callback_pattern = true ->
  action = "prev" \/ action = "next" ->
  (navigate action y m).1 = 0 ->
  process_selection (nav_token action y m)
  = re_render (year today) (month today).
Proof.
  intros Hp Ha Hzero. rewrite process_selection_nav_token by auto.
  destruct (navigate action y m) as [y' m']. cbn [fst] in Hzero. subst y'.
  unfold re_render. rewrite (create_calendar_falsy (Some 0) (Some m'))
    by reflexivity.
  reflexivity.
Qed.

(** ** Further properties of the grid builder *)

(** X8. When the year or the month given to [create_calendar] is None or 0,
    both arguments are dropped: the result is the one for the year and the
    month of today, also when the other argument names a month. *)
Theorem create_calendar_defaults (year_arg month_arg : option Z) :
  falsy year_arg || falsy month_arg = true ->
  create_calendar year_arg month_arg
  = create_calendar (Some (year today)) (Some (month today)).
Proof. apply create_calendar_falsy. Qed.

Lemma resolve_given (y m : Z) :
  y <> 0 -> m <> 0 -> resolve (Some y) (Some m) = (y, m).
Proof.
  intros Hy Hm. unfold resolve.
  destruct (Z.eqb_spec y 0); [lia|]. destruct (Z.eqb_spec m 0); [lia|].
  reflexivity.
Qed.

(** X9. A month above 12 or below -11 has no name: for a year other than
    0, [create_calendar] raises IndexError, before any date is built. *)
Theorem create_calendar_month_out_of_range (y m : Z) :
  y <> 0 -> m > 12 \/ m < -11 ->
  create_calendar (Some y) (Some m) = Raise IndexError.
Proof.
  intros Hy Hm. unfold create_calendar.
  rewrite resolve_given by lia.
  unfold _get_persian_month_name. rewrite getitem_spec.
  change (Z.of_nat (length months)) with 12.
  repeat case_decide; try lia. reflexivity.
Qed.

Lemma add_days_rejected year month (ds : list Z) st :
  forallb (check_date year month) ds = false ->
  add_days year month ds st = Raise ValueError.
Proof.
  revert st. induction ds as [|d ds IH]; intros st; cbn [forallb add_days];
    [discriminate|].
  destruct st as [kb cur]. cbn [add_day]. unfold new_JalaliDate.
  destruct (check_date year month d); cbn [andb bind]; [|reflexivity].
  intros Hds.
  destruct (Z.of_nat (length (cur ++ [_])) =? 7); cbn [bind]; apply IH, Hds.
Qed.

(** X10. For a year other than 0 and a month other than 0 that has a name
    (-11..12), [create_calendar] raises ValueError as soon as the library
    rejects one of the days 1 .. days-in-month that the code computes: no
    keyboard with a part of the month is returned. With X9 and the layout of
    a valid month this settles every pair of integers. *)
Theorem create_calendar_rejected_day (y m : Z) :
  y <> 0 -> m <> 0 -> -11 <= m <= 12 ->
  forallb (check_date y m) (seqZ 1 (days_in_month y m)) = false ->
  create_calendar (Some y) (Some m) = Raise ValueError.
Proof.
  intros Hy Hm0 Hm Hrej.
  assert (Hname : exists name, _get_persian_month_name m = Ok name).
  { unfold _get_persian_month_name. rewrite getitem_spec.
    change (Z.of_nat (length months)) with 12.
    repeat case_decide; try lia; eauto. }
  destruct Hname as [name Hname]. unfold create_calendar.
  rewrite resolve_given by lia. rewrite Hname. cbn [bind].
  unfold new_JalaliDate at 1.
  destruct (check_date y m 1); cbn [bind]; [|reflexivity].
  rewrite add_days_rejected by exact Hrej. reflexivity.
Qed.

(** X11. The first row of the keyboard of a valid month is the left arrow,
    the label "{month name} {year}" and the right arrow; the label carries
    "ignore", and with a token prefix that has no underscore the tokens of
    the two arrows are decoded to the re-render of the month before and of
    the month after. *)
Theorem arrows_lead_to_neighbours (y m : Z) :
  no_underscore callback_pattern = true ->
  valid_month y m = true ->
  exists markup name left right,
    create_calendar (Some y) (Some m) = Ok markup /\
    _get_persian_month_name m = Ok name /\
    inline_keyboard markup !! 0%nat
    = Some [left; ignore_button (name +:+ " " +:+ str y); right] /\
    text left = "←" /\ text right = "→" /\
    process_selection (callback_data left)
    = (if m =? 1 then re_render (y - 1) 12 else re_render y (m - 1)) /\
    process_selection (callback_data right)
    = (if m =? 12 then re_render (y + 1) 1 else re_render y (m + 1)).
Proof.
  intros Hp Hvalid.
  destruct (create_calendar_layout y m Hvalid)
    as (name & rows & pad & Hname & Hrun & _).
  apply valid_month_spec in Hvalid as (_ & Hm & _).
  eexists _, name, _, _. split; [exact Hrun|]. split; [exact Hname|].
  cbn [inline_keyboard]. unfold header_row.
  split; [reflexivity|]. cbn [text callback_data].
  split; [reflexivity|]. split; [reflexivity|].
  rewrite !process_selection_nav_token by auto.
  rewrite navigate_prev, navigate_next.
  split.
  - destruct (Z.leb_spec m 1), (Z.eqb_spec m 1); try lia; reflexivity.
  - destruct (Z.leb_spec 12 m), (Z.eqb_spec m 12); try lia; reflexivity.
Qed.

(** X12. The keyboard of a valid month has 7 or 8 rows: the two header rows
    and 5 or 6 rows of days, that is 45 or 52 buttons in all. *)
Theorem keyboard_size (y m : Z) :
  valid_month y m = true ->
  exists markup,
    create_calendar (Some y) (Some m) = Ok markup /\
    (length (inline_keyboard markup) = 7%nat
     /\ length (concat (inline_keyboard markup)) = 45%nat
     \/ length (inline_keyboard markup) = 8%nat
        /\ length (concat (inline_keyboard markup)) = 52%nat).
Proof.
  intros Hvalid.
  destruct (create_calendar_layout y m Hvalid)
    as (name & rows & pad & _ & Hrun & Hrows & Hpad & Hcat).
  pose proof (days_in_month_range y m) as Hdays.
  assert (Hoff : 0 <= start_weekday {| year := y; month := m; day := 1 |} < 7)
    by (apply Z.mod_pos_bound; lia).
  pose proof (length_concat_rows rows 7 Hrows) as Hlen.
  assert (Hsum : (29 <= length (concat rows) <= 43)%nat).
  { rewrite Hcat, !length_app, !length_replicate, length_fmap, length_seqZ.
    lia. }
  eexists. split; [exact Hrun|].
  cbn [inline_keyboard concat length]. rewrite !length_app, Hlen.
  unfold header_row, weekday_row, weekdays. cbn [length fmap list_fmap].
  lia.
Qed.

(** X13. Read row by row, the cells of a valid month that are not blank are
    the cells of the days 1, 2, ..., days-in-month, in this order: no day is
    left out, repeated or out of place, and the tokens are the day tokens of
    these days. *)
Theorem days_in_order (y m : Z) :
  valid_month y m = true ->
  exists markup,
    create_calendar (Some y) (Some m) = Ok markup /\
    List.filter (fun b => negb (is_blank b)) (concat (day_rows markup))
    = day_cell y m <$> seqZ 1 (days_in_month y m) /\
    callback_data <$>
      List.filter (fun b => negb (is_blank b)) (concat (day_rows markup))
    = day_token y m <$> seqZ 1 (days_in_month y m).
Proof.
  intros Hvalid.
  destruct (create_calendar_layout y m Hvalid)
    as (name & rows & pad & _ & Hrun & _ & _ & Hcat).
  eexists. split; [exact Hrun|].
  unfold day_rows. cbn [inline_keyboard drop].
  change (drop 0 rows) with rows.
  rewrite Hcat, !List.filter_app, !filter_replicate_blank, filter_day_cells.
  rewrite app_nil_r. cbn [app]. split; [reflexivity|].
  rewrite <- list_fmap_compose. reflexivity.
Qed.

Lemma lookup_concat_rows {A} (rows : list (list A)) (w k : nat) :
  (0 < w)%nat ->
  Forall (fun row => length row = w) rows ->
  concat rows !! k = rows !! (k / w)%nat ≫= (fun row => row !! (k mod w)%nat).
Proof.
  intros Hw Hrows. revert k.
  induction Hrows as [|row rows Hrow _ IH]; intros k; [reflexivity|].
  cbn [concat]. destruct (decide (k < w)%nat) as [Hk|Hk].
  - rewrite lookup_app_l by lia.
    rewrite Nat.div_small, Nat.mod_small by lia. reflexivity.
  - rewrite lookup_app_r by lia. rewrite Hrow, IH.
    assert (Hdiv : (k / w)%nat = S ((k - w) / w)).
    { replace k with ((k - w) + 1 * w)%nat at 1 by lia.
      rewrite Nat.div_add by lia. lia. }
    assert (Hmod : (k mod w)%nat = ((k - w) mod w)%nat).
    { replace k with ((k - w) + 1 * w)%nat at 1 by lia.
      apply Nat.Div0.mod_add. }
    rewrite Hdiv, Hmod. reflexivity.
Qed.

(** X14. In the keyboard of a valid month, the cell of day d is in row
    2 + (offset + d - 1) div 7, counted from 0, and in column
    (offset + d - 1) mod 7, where offset is the column of day 1. *)
Theorem day_position (y m d : Z) :
  valid_month y m = true ->
  1 <= d <= days_in_month y m ->
  let k := (Z.to_nat (start_weekday {| year := y; month := m; day := 1 |})
            + Z.to_nat (d - 1))%nat in
  exists markup row,
    create_calendar (Some y) (Some m) = Ok markup /\
    inline_keyboard markup !! (2 + k / 7)%nat = Some row /\
    row !! (k mod 7)%nat = Some (day_cell y m d).
Proof.
  intros Hvalid Hd k.
  destruct (create_calendar_layout y m Hvalid)
    as (name & rows & pad & _ & Hrun & Hrows & _ & Hcat).
  pose proof (layout_day_lookup _ _ _ _ _ _ _ Hcat Hd) as Hcell.
  fold k in Hcell.
  rewrite (lookup_concat_rows rows 7 k) in Hcell by (auto; lia).
  destruct (rows !! (k / 7)%nat) as [row|] eqn:Hrow; [|discriminate Hcell].
  exists {| inline_keyboard := header_row y m name :: weekday_row :: rows |}, row.
  split; [exact Hrun|]. split; [exact Hrow | exact Hcell].
Qed.

Lemma weekday_progress (y m : Z) (n : nat) :
  consecutive_weekdays y m = true ->
  Z.of_nat n < days_in_month y m ->
  weekday {| year := y; month := m; day := 1 + Z.of_nat n |} mod 7
  = (weekday {| year := y; month := m; day := 1 |} + Z.of_nat n) mod 7.
Proof.
  intros Hcons. unfold consecutive_weekdays in Hcons.
  rewrite forallb_forall in Hcons.
  induction n as [|n IH]; intros Hn.
  - change (Z.of_nat 0) with 0. rewrite !Z.add_0_r. reflexivity.
  - assert (Hstep : In (1 + Z.of_nat n) (seqZ 1 (days_in_month y m - 1)))
      by (apply list_elem_of_In, elem_of_seqZ; lia).
    apply Hcons, Z.eqb_eq in Hstep.
    replace (1 + Z.of_nat (S n)) with (1 + Z.of_nat n + 1) by lia.
    rewrite Hstep, Z.mod_mod by lia.
    rewrite <- Z.add_mod_idemp_l, IH, Z.add_mod_idemp_l by lia.
    f_equal. lia.
Qed.

(** X15. When the weekdays that the library gives to the days of the month
    follow one another, every day of a valid month stands in the column
    (w + 2) mod 7 of its own weekday w: Saturdays in column 0, and Fridays,
    the weekday 4, in the last column, 6. *)
Theorem day_column_is_weekday (y m d : Z) :
  valid_month y m = true ->
  consecutive_weekdays y m = true ->
  1 <= d <= days_in_month y m ->
  exists markup row i,
    create_calendar (Some y) (Some m) = Ok markup /\
    inline_keyboard markup !! i = Some row /\
    row !! Z.to_nat ((weekday {| year := y; month := m; day := d |} + 2) mod 7)
    = Some (day_cell y m d).
Proof.
  intros Hvalid Hcons Hd.
  destruct (create_calendar_layout y m Hvalid)
    as (name & rows & pad & _ & Hrun & Hrows & _ & Hcat).
  pose proof (layout_day_lookup _ _ _ _ _ _ _ Hcat Hd) as Hcell.
  set (first := {| year := y; month := m; day := 1 |}) in *.
  set (k := (Z.to_nat (start_weekday first) + Z.to_nat (d - 1))%nat) in *.
  rewrite (lookup_concat_rows rows 7 k) in Hcell by (auto; lia).
  destruct (rows !! (k / 7)%nat) as [row|] eqn:Hrow; [|discriminate Hcell].
  exists {| inline_keyboard := header_row y m name :: weekday_row :: rows |},
    row, (2 + k / 7)%nat.
  split; [exact Hrun|]. split; [exact Hrow|].
  replace (Z.to_nat ((weekday {| year := y; month := m; day := d |} + 2) mod 7))
    with (k mod 7)%nat; [exact Hcell|].
  pose proof (weekday_progress y m (Z.to_nat (d - 1)) Hcons) as Hw.
  replace (1 + Z.of_nat (Z.to_nat (d - 1))) with d in Hw by lia.
  rewrite <- Z.add_mod_idemp_l, Hw, Z.add_mod_idemp_l by lia.
  assert (Hoff : 0 <= start_weekday first < 7)
    by (apply Z.mod_pos_bound; lia).
  apply Nat2Z.inj. rewrite Nat2Z.inj_mod, Z2Nat.id by (apply Z.mod_pos_bound; lia).
  unfold k. rewrite Nat2Z.inj_add, !Z2Nat.id by lia.
  unfold start_weekday. rewrite Z.add_mod_idemp_l by lia.
  change (Z.of_nat 7) with 7. subst first. f_equal. lia.
Qed.

Lemma process_selection_ignore :
  startswith "ignore" callback_pattern = false ->
  process_selection "ignore" = ([answer], Ok None).
Proof. intros H. unfold process_selection. rewrite H. reflexivity. Qed.

(** X16. Every cell under the navigation row of a valid month is safe to
    press, when the token prefix has no underscore and is not a beginning of
    "ignore": the token of a weekday label or of a blank cell is a no-op, and
    the token of the cell of day d returns "{y}/{m}/{d}"; none makes
    [process_selection] raise or render. *)
Theorem cells_decode (y m : Z) :
  no_underscore callback_pattern = true ->
  startswith "ignore" callback_pattern = false ->
  valid_month y m = true ->
  exists markup,
    create_calendar (Some y) (Some m) = Ok markup /\
    Forall (fun b =>
              callback_data b = "ignore"
              /\ process_selection (callback_data b) = ([answer], Ok None)
              \/ exists d, 1 <= d <= days_in_month y m /\ b = day_cell y m d /\
                   process_selection (callback_data b)
                   = ([answer],
                      Ok (Some (str y +:+ "/" +:+ str m +:+ "/" +:+ str d))))
           (concat (drop 1 (inline_keyboard markup))).
Proof.
  intros Hp Hign Hvalid.
  destruct (create_calendar_layout y m Hvalid)
    as (name & rows & pad & _ & Hrun & _ & _ & Hcat).
  eexists. split; [exact Hrun|].
  cbn [inline_keyboard drop]. change (drop 0 ?l) with l.
  cbn [concat]. rewrite Hcat, !Forall_app.
  repeat split.
  - unfold weekday_row. apply Forall_fmap, Forall_forall. intros label _.
    left. split; [reflexivity | apply process_selection_ignore, Hign].
  - apply Forall_replicate. left.
    split; [reflexivity | apply process_selection_ignore, Hign].
  - apply Forall_fmap, Forall_forall. intros d Hd%elem_of_seqZ.
    right. exists d. split; [lia|]. split; [reflexivity|].
    apply process_selection_day_token, Hp.
  - apply Forall_replicate. left.
    split; [reflexivity | apply process_selection_ignore, Hign].
Qed.

Lemma str_inj (n n' : Z) : str n = str n' -> n = n'.
Proof.
  intros H. pose proof (int_str n) as Hn. rewrite H, int_str in Hn.
  congruence.
Qed.

(** X17. Different dates have different day tokens: two day tokens of one
    picker that differ in the year, in the month or in the day are different
    strings, so that no two cells of a keyboard, and no two keyboards, share
    a day token. *)
Theorem day_token_distinct (y m d y' m' d' : Z) :
  y <> y' \/ m <> m' \/ d <> d' ->
  day_token y m d <> day_token y' m' d'.
Proof.
  intros Hne Heq. unfold day_token in Heq.
  apply String.app_inj, String.app_inj in Heq.
  apply (f_equal (split "_")) in Heq.
  rewrite !(split_app_field "_" (str _)) in Heq by apply str_no_underscore.
  rewrite !split_no_sep in Heq by apply str_no_underscore.
  injection Heq as Hy Hm Hd.
  apply str_inj in Hy, Hm, Hd. lia.
Qed.

(** X18. [show_calendar] called without a year or without a month (None or
    0) cannot fail when the month of today is valid: it sends one reply, whose
    text ends with the line of today's date and whose keyboard is the one of
    the month of today. *)
Theorem show_calendar_today (year_arg month_arg : option Z) :
  valid_month (year today) (month today) = true ->
  falsy year_arg || falsy month_arg = true ->
  exists name markup,
    _get_persian_month_name (month today) = Ok name /\
    create_calendar (Some (year today)) (Some (month today)) = Ok markup /\
    show_calendar year_arg month_arg
    = ([reply_text
          ("لطفاً تاریخ مورد نظر را انتخاب کنید:" +:+ newline +:+ "امروز: "
           +:+ str (day today) +:+ " " +:+ name +:+ " " +:+ str (year today))
          markup],
       Ok tt).
Proof.
  intros Hvalid Hargs.
  destruct (create_calendar_layout _ _ Hvalid)
    as (name & rows & pad & Hname & Hrun & _).
  eexists name, _. split; [exact Hname|]. split; [exact Hrun|].
  unfold show_calendar. rewrite Hname, (create_calendar_falsy _ _ Hargs), Hrun.
  reflexivity.
Qed.

End PersianDatePicker.

(** ** The engine on the sample picker *)

Abbreviation sample_create_calendar :=
  (create_calendar Sample.callback_pattern Sample.holidays Sample.today
     Arithmetic.check_date Arithmetic.is_leap Arithmetic.weekday).

Abbreviation sample_process_selection :=
  (process_selection Sample.callback_pattern Sample.holidays Sample.today
     Arithmetic.check_date Arithmetic.is_leap Arithmetic.weekday
     Sample.unicode_to_ascii).

Abbreviation sample_int := (Py.int Sample.unicode_to_ascii).

Abbreviation sample_re_render :=
  (re_render Sample.callback_pattern Sample.holidays Sample.today
     Arithmetic.check_date Arithmetic.is_leap Arithmetic.weekday).

Abbreviation sample_day_cell :=
  (day_cell Sample.callback_pattern Sample.holidays Arithmetic.weekday).

Abbreviation farvardin_1402 := {| year := 1402; month := 1; day := 1 |}.

Lemma create_calendar_grid_witness :
  valid_month Arithmetic.check_date Arithmetic.is_leap 1402 1 = true /\
  exists markup,
    sample_create_calendar (Some 1402) (Some 1) = Ok markup /\
    Z.of_nat (length (inline_keyboard markup))
    = 2 + ceil_div (start_weekday Arithmetic.weekday farvardin_1402
                    + days_in_month Arithmetic.is_leap 1402 1) 7 /\
    Forall (fun row => length row = 7%nat) (day_rows markup) /\
    Z.of_nat (length (List.filter (fun b => negb (is_blank b))
                        (concat (day_rows markup))))
    = days_in_month Arithmetic.is_leap 1402 1 /\
    Forall (fun b => is_blank b = true -> callback_data b = "ignore")
           (concat (day_rows markup)).
Proof.
  split; [reflexivity|].
  apply (create_calendar_grid Sample.callback_pattern Sample.holidays
           Sample.today Arithmetic.check_date Arithmetic.is_leap
           Arithmetic.weekday 1402 1).
  reflexivity.
Defined.

Lemma days_in_month_rule_witness :
  1 <= 12 <= 12 /\
  ((1 <= 12 <= 6 /\ days_in_month Arithmetic.is_leap 1403 12 = 31) \/
   (7 <= 12 <= 11 /\ days_in_month Arithmetic.is_leap 1403 12 = 30) \/
   (12 = 12 /\ Arithmetic.is_leap 1403 = true
    /\ days_in_month Arithmetic.is_leap 1403 12 = 30) \/
   (12 = 12 /\ Arithmetic.is_leap 1403 = false
    /\ days_in_month Arithmetic.is_leap 1403 12 = 29)).
Proof.
  split; [lia|].
  apply (days_in_month_rule Arithmetic.is_leap 1403 12). lia.
Defined.

Lemma day_token_round_trip_witness :
  no_underscore Sample.callback_pattern = true /\
  valid_month Arithmetic.check_date Arithmetic.is_leap 1402 1 = true /\
  1 <= 5 <= days_in_month Arithmetic.is_leap 1402 1 /\
  exists markup cell,
    sample_create_calendar (Some 1402) (Some 1) = Ok markup /\
    concat (day_rows markup)
      !! (Z.to_nat (start_weekday Arithmetic.weekday farvardin_1402)
          + Z.to_nat (5 - 1))%nat = Some cell /\
    (text cell = str 5 \/ text cell = "🔴" +:+ str 5) /\
    callback_data cell = day_token Sample.callback_pattern 1402 1 5 /\
    sample_process_selection (callback_data cell)
    = ([answer], Ok (Some (str 1402 +:+ "/" +:+ str 1 +:+ "/" +:+ str 5))).
Proof.
  split; [reflexivity|]. split; [reflexivity|]. split; [vm_compute; intuition discriminate|].
  apply (day_token_round_trip Sample.callback_pattern Sample.holidays
           Sample.today Arithmetic.check_date Arithmetic.is_leap
           Arithmetic.weekday Sample.unicode_to_ascii 1402 1 5).
  - reflexivity.
  - reflexivity.
  - vm_compute; intuition discriminate.
Defined.

Lemma first_day_column_witness :
  valid_month Arithmetic.check_date Arithmetic.is_leap 1402 1 = true /\
  let offset := (Arithmetic.weekday farvardin_1402 + 2) mod 7 in
  0 <= offset <= 6 /\
  exists markup row,
    sample_create_calendar (Some 1402) (Some 1) = Ok markup /\
    day_rows markup !! 0%nat = Some row /\
    row !! Z.to_nat offset = Some (sample_day_cell 1402 1 1) /\
    forall i, (i < Z.to_nat offset)%nat -> row !! i = Some blank.
Proof.
  split; [reflexivity|].
  apply (first_day_column Sample.callback_pattern Sample.holidays
           Sample.today Arithmetic.check_date Arithmetic.is_leap
           Arithmetic.weekday 1402 1).
  reflexivity.
Defined.

Lemma navigation_wrap_witness :
  no_underscore Sample.callback_pattern = true /\
  1 <= 6 <= 12 /\
  sample_process_selection (nav_token Sample.callback_pattern "next" 1402 12)
  = sample_re_render (1402 + 1) 1 /\
  sample_process_selection (nav_token Sample.callback_pattern "prev" 1402 1)
  = sample_re_render (1402 - 1) 12 /\
  (6 <> 12 ->
   sample_process_selection (nav_token Sample.callback_pattern "next" 1402 6)
   = sample_re_render 1402 (6 + 1)) /\
  (6 <> 1 ->
   sample_process_selection (nav_token Sample.callback_pattern "prev" 1402 6)
   = sample_re_render 1402 (6 - 1)) /\
  (forall y' m' s, snd (sample_re_render y' m') <> Ok (Some s)) /\
  (forall y' m',
     valid_month Arithmetic.check_date Arithmetic.is_leap y' m' = true ->
     exists markup, sample_create_calendar (Some y') (Some m') = Ok markup /\
       sample_re_render y' m'
       = ([answer; edit_message_reply_markup markup], Ok None)).
Proof.
  split; [reflexivity|]. split; [lia|].
  apply (navigation_wrap Sample.callback_pattern Sample.holidays
           Sample.today Arithmetic.check_date Arithmetic.is_leap
           Arithmetic.weekday Sample.unicode_to_ascii 1402 6).
  - reflexivity.
  - lia.
Defined.

Lemma prefix_isolation_witness :
  startswith "other_day_1402_1_5" Sample.callback_pattern = false /\
  sample_process_selection "other_day_1402_1_5" = ([answer], Ok None).
Proof.
  split; [reflexivity|].
  apply (prefix_isolation Sample.callback_pattern Sample.holidays
           Sample.today Arithmetic.check_date Arithmetic.is_leap
           Arithmetic.weekday Sample.unicode_to_ascii "other_day_1402_1_5").
  reflexivity.
Defined.

Lemma malformed_token_raises_witness :
  startswith "cal_day_1402_x_5" Sample.callback_pattern = true /\
  getitem (split "_" "cal_day_1402_x_5") 1 = Ok "day" /\
  malformed Sample.unicode_to_ascii "x" /\
  sample_process_selection "cal_day_1402_x_5" = ([answer], Raise ValueError).
Proof.
  split; [reflexivity|]. split; [reflexivity|]. split; [reflexivity|].
  apply (malformed_token_raises Sample.callback_pattern Sample.holidays
           Sample.today Arithmetic.check_date Arithmetic.is_leap
           Arithmetic.weekday Sample.unicode_to_ascii
           "cal_day_1402_x_5" "day").
  - reflexivity.
  - reflexivity.
  - right; right; reflexivity.
  - left. change (drop 2 (split "_" "cal_day_1402_x_5")) with ["1402"; "x"; "5"].
    apply Exists_cons_tl, Exists_cons_hd. reflexivity.
Defined.

Lemma longer_prefix_not_isolated_witness :
  no_underscore Sample.callback_pattern = true /\
  no_underscore "2" = true /\ "2" <> "" /\
  getitem (split "_" "cal2_day_1402_1_5") 0 = Ok "cal2" /\
  "cal2" <> Sample.callback_pattern /\
  sample_process_selection "cal2_day_1402_1_5"
  = ([answer], Ok (Some "1402/1/5")).
Proof.
  split; [reflexivity|]. split; [reflexivity|]. split; [discriminate|].
  apply (longer_prefix_not_isolated Sample.callback_pattern Sample.holidays
           Sample.today Arithmetic.check_date Arithmetic.is_leap
           Arithmetic.weekday Sample.unicode_to_ascii "2" 1402 1 5);
    [reflexivity | reflexivity | discriminate].
Defined.

Lemma day_token_not_validated_witness :
  no_underscore Sample.callback_pattern = true /\
  sample_int "1402" = Ok 1402 /\ sample_int "13" = Ok 13 /\ sample_int "45" = Ok 45 /\
  Arithmetic.check_date 1402 13 45 = false /\
  sample_process_selection "cal_day_1402_13_45"
  = ([answer], Ok (Some "1402/13/45")).
Proof.
  repeat (split; [reflexivity|]).
  apply (day_token_not_validated Sample.callback_pattern Sample.holidays
           Sample.today Arithmetic.check_date Arithmetic.is_leap
           Arithmetic.weekday Sample.unicode_to_ascii "1402" "13" "45" 1402 13 45); reflexivity.
Defined.

(** C9, as stated, fails at month 0, which is outside 1..12: the lookup
    does not fail, it returns the last entry of the table. *)
Lemma month_name_zero_returns :
  ~ (1 <= 0 <= 12) /\ _get_persian_month_name 0 = Ok "اسفند".
Proof. split; [lia | reflexivity]. Qed.

(** ** The decoder on other prefixes and the end-to-end scenario *)

(** Farvardin 1402 on the sample picker: the navigation row. *)
Example farvardin_1402_header :
  exists rows,
    sample_create_calendar (Some 1402) (Some 1)
    = Ok {| inline_keyboard :=
              [ {| text := "←"; callback_data := "cal_prev_1402_1" |};
                {| text := "فروردین 1402"; callback_data := "ignore" |};
                {| text := "→"; callback_data := "cal_next_1402_1" |} ]
              :: rows |}.
Proof. eexists. vm_compute. reflexivity. Qed.

Example farvardin_1402_prev :
  sample_process_selection "cal_prev_1402_1" = sample_re_render 1401 12.
Proof. vm_compute. reflexivity. Qed.

(** The prefix is matched with [startswith]: the picker "cal" also decodes
    the tokens of a picker whose prefix is "cal2". *)
Example longer_prefix_is_decoded :
  sample_process_selection "cal2_day_1402_1_5"
  = ([answer], Ok (Some "1402/1/5")).
Proof. vm_compute. reflexivity. Qed.

(** With an underscore in the prefix, the action is read from the wrong
    field, and the picker ignores its own tokens. *)
Example underscore_prefix_is_ignored :
  process_selection "my_calendar" Sample.holidays Sample.today
    Arithmetic.check_date Arithmetic.is_leap Arithmetic.weekday
    Sample.unicode_to_ascii
    (day_token "my_calendar" 1402 1 5)
  = ([answer], Ok None).
Proof. vm_compute. reflexivity. Qed.

(** The separators 0x1c..0x1f are not white space for [int]: a field that
    begins with one is malformed, whatever the Unicode database. *)
Example separator_is_not_stripped (unicode_to_ascii : string -> string) :
  Py.int unicode_to_ascii (String "028" "1402") = Raise ValueError.
Proof. reflexivity. Qed.

(** Fields outside ASCII go through the Unicode database: on the sample
    database Persian digits are read, and a letter is rejected. *)
Example persian_digits_are_read :
  sample_process_selection "cal_day_۱۴۰۲_۱_۵"
  = ([answer], Ok (Some "1402/1/5")).
Proof. vm_compute. reflexivity. Qed.

Example letter_outside_ascii_raises :
  sample_process_selection "cal_day_1402_é_5" = ([answer], Raise ValueError).
Proof. vm_compute. reflexivity. Qed.

(** A token without any underscore has no action field. *)
Example no_action_field :
  sample_process_selection "cal" = ([answer], Raise IndexError).
Proof. vm_compute. reflexivity. Qed.

(** ** The holiday file *)

(** X19. When the holiday file cannot be opened or parsed,
    [_load_holidays] prints one warning and returns the empty mapping, and a
    picker that keeps this mapping marks a date as a holiday exactly when it
    is a Friday (weekday 4). *)
Theorem load_holidays_fallback (e : string) (weekday : JalaliDate -> Z)
    (date : JalaliDate) :
  (_load_holidays (inl e)).1 = ["Warning: Could not load holidays file: " +:+ e]
  /\ (_load_holidays (inl e)).2 = ∅
  /\ _is_holiday (_load_holidays (inl e)).2 weekday date = (weekday date =? 4).
Proof.
  split; [reflexivity|]. split; [reflexivity|].
  unfold _is_holiday. cbn [_load_holidays snd].
  rewrite lookup_empty.
  rewrite bool_decide_eq_false_2 by (intros [x Hx]; discriminate Hx).
  reflexivity.
Qed.

(** ** The further properties on the sample picker *)

Abbreviation sample_show_calendar :=
  (show_calendar Sample.callback_pattern Sample.holidays Sample.today
     Arithmetic.check_date Arithmetic.is_leap Arithmetic.weekday).

Lemma token_without_action_witness :
  no_underscore "ignore" = true /\
  sample_process_selection "ignore" = ([answer], Ok None).
Proof.
  split; [reflexivity|].
  apply (token_without_action Sample.callback_pattern Sample.holidays
           Sample.today Arithmetic.check_date Arithmetic.is_leap
           Arithmetic.weekday Sample.unicode_to_ascii "ignore").
  reflexivity.
Defined.

Lemma unknown_action_is_noop_witness :
  startswith "cal_month_1402_1" Sample.callback_pattern = true /\
  getitem (split "_" "cal_month_1402_1") 1 = Ok "month" /\
  sample_process_selection "cal_month_1402_1" = ([answer], Ok None).
Proof.
  split; [reflexivity|]. split; [reflexivity|].
  apply (unknown_action_is_noop Sample.callback_pattern Sample.holidays
           Sample.today Arithmetic.check_date Arithmetic.is_leap
           Arithmetic.weekday Sample.unicode_to_ascii "cal_month_1402_1" "month");
    [reflexivity | reflexivity | discriminate ..].
Defined.

Lemma selection_reads_back_witness :
  sample_process_selection "cal_day_1402_1_5" = ([answer], Ok (Some "1402/1/5")) /\
  exists y m d,
    sample_int <$> drop 2 (split "_" "cal_day_1402_1_5") = [Ok y; Ok m; Ok d] /\
    sample_int <$> split "/" "1402/1/5" = [Ok y; Ok m; Ok d].
Proof.
  split; [reflexivity|].
  apply (selection_reads_back Sample.callback_pattern Sample.holidays
           Sample.today Arithmetic.check_date Arithmetic.is_leap
           Arithmetic.weekday Sample.unicode_to_ascii "cal_day_1402_1_5" "1402/1/5" [answer]).
  reflexivity.
Defined.

Lemma next_prev_round_trip_witness :
  no_underscore Sample.callback_pattern = true /\
  1 <= 12 <= 12 /\
  sample_process_selection
    (nav_token Sample.callback_pattern "prev" (navigate "next" 1402 12).1
       (navigate "next" 1402 12).2)
  = sample_re_render 1402 12 /\
  sample_process_selection
    (nav_token Sample.callback_pattern "next" (navigate "prev" 1402 12).1
       (navigate "prev" 1402 12).2)
  = sample_re_render 1402 12.
Proof.
  split; [reflexivity|]. split; [lia|].
  apply (next_prev_round_trip Sample.callback_pattern Sample.holidays
           Sample.today Arithmetic.check_date Arithmetic.is_leap
           Arithmetic.weekday Sample.unicode_to_ascii 1402 12); [reflexivity | lia].
Defined.

Lemma navigation_any_month_witness :
  no_underscore Sample.callback_pattern = true /\
  sample_process_selection (nav_token Sample.callback_pattern "next" 1402 99)
  = (if 12 <=? 99 then sample_re_render (1402 + 1) 1
     else sample_re_render 1402 (99 + 1)) /\
  sample_process_selection (nav_token Sample.callback_pattern "prev" 1402 99)
  = (if 99 <=? 1 then sample_re_render (1402 - 1) 12
     else sample_re_render 1402 (99 - 1)).
Proof.
  split; [reflexivity|].
  apply (navigation_any_month Sample.callback_pattern Sample.holidays
           Sample.today Arithmetic.check_date Arithmetic.is_leap
           Arithmetic.weekday Sample.unicode_to_ascii 1402 99).
  reflexivity.
Defined.

Lemma navigation_to_year_zero_witness :
  no_underscore Sample.callback_pattern = true /\
  (navigate "prev" 1 1).1 = 0 /\
  sample_process_selection (nav_token Sample.callback_pattern "prev" 1 1)
  = sample_re_render (year Sample.today) (month Sample.today).
Proof.
  split; [reflexivity|]. split; [reflexivity|].
  apply (navigation_to_year_zero Sample.callback_pattern Sample.holidays
           Sample.today Arithmetic.check_date Arithmetic.is_leap
           Arithmetic.weekday Sample.unicode_to_ascii "prev" 1 1); [reflexivity | left | ]; reflexivity.
Defined.

Lemma create_calendar_defaults_witness :
  falsy (Some 1390) || falsy None = true /\
  sample_create_calendar (Some 1390) None
  = sample_create_calendar (Some (year Sample.today)) (Some (month Sample.today)).
Proof.
  split; [reflexivity|].
  apply (create_calendar_defaults Sample.callback_pattern Sample.holidays
           Sample.today Arithmetic.check_date Arithmetic.is_leap
           Arithmetic.weekday (Some 1390) None).
  reflexivity.
Defined.

Lemma create_calendar_month_out_of_range_witness :
  1402 <> 0 /\ (13 > 12 \/ 13 < -11) /\
  sample_create_calendar (Some 1402) (Some 13) = Raise IndexError.
Proof.
  split; [lia|]. split; [lia|].
  apply (create_calendar_month_out_of_range Sample.callback_pattern
           Sample.holidays Sample.today Arithmetic.check_date
           Arithmetic.is_leap Arithmetic.weekday 1402 13); lia.
Defined.

Lemma create_calendar_rejected_day_witness :
  9378 <> 0 /\ 1 <> 0 /\ -11 <= 1 <= 12 /\
  forallb (Arithmetic.check_date 9378 1)
          (seqZ 1 (days_in_month Arithmetic.is_leap 9378 1)) = false /\
  sample_create_calendar (Some 9378) (Some 1) = Raise ValueError.
Proof.
  split; [lia|]. split; [lia|]. split; [lia|]. split; [reflexivity|].
  apply (create_calendar_rejected_day Sample.callback_pattern
           Sample.holidays Sample.today Arithmetic.check_date
           Arithmetic.is_leap Arithmetic.weekday 9378 1);
    [lia | lia | lia | reflexivity].
Defined.

Lemma arrows_lead_to_neighbours_witness :
  no_underscore Sample.callback_pattern = true /\
  valid_month Arithmetic.check_date Arithmetic.is_leap 1402 1 = true /\
  exists markup name left right,
    sample_create_calendar (Some 1402) (Some 1) = Ok markup /\
    _get_persian_month_name 1 = Ok name /\
    inline_keyboard markup !! 0%nat
    = Some [left; ignore_button (name +:+ " " +:+ str 1402); right] /\
    text left = "←" /\ text right = "→" /\
    sample_process_selection (callback_data left)
    = (if 1 =? 1 then sample_re_render (1402 - 1) 12
       else sample_re_render 1402 (1 - 1)) /\
    sample_process_selection (callback_data right)
    = (if 1 =? 12 then sample_re_render (1402 + 1) 1
       else sample_re_render 1402 (1 + 1)).
Proof.
  split; [reflexivity|]. split; [reflexivity|].
  apply (arrows_lead_to_neighbours Sample.callback_pattern Sample.holidays
           Sample.today Arithmetic.check_date Arithmetic.is_leap
           Arithmetic.weekday Sample.unicode_to_ascii 1402 1); reflexivity.
Defined.

Lemma keyboard_size_witness :
  valid_month Arithmetic.check_date Arithmetic.is_leap 1402 1 = true /\
  exists markup,
    sample_create_calendar (Some 1402) (Some 1) = Ok markup /\
    (length (inline_keyboard markup) = 7%nat
     /\ length (concat (inline_keyboard markup)) = 45%nat
     \/ length (inline_keyboard markup) = 8%nat
        /\ length (concat (inline_keyboard markup)) = 52%nat).
Proof.
  split; [reflexivity|].
  apply (keyboard_size Sample.callback_pattern Sample.holidays
           Sample.today Arithmetic.check_date Arithmetic.is_leap
           Arithmetic.weekday 1402 1).
  reflexivity.
Defined.

Lemma days_in_order_witness :
  valid_month Arithmetic.check_date Arithmetic.is_leap 1402 12 = true /\
  exists markup,
    sample_create_calendar (Some 1402) (Some 12) = Ok markup /\
    List.filter (fun b => negb (is_blank b)) (concat (day_rows markup))
    = sample_day_cell 1402 12 <$> seqZ 1 (days_in_month Arithmetic.is_leap 1402 12) /\
    callback_data <$>
      List.filter (fun b => negb (is_blank b)) (concat (day_rows markup))
    = day_token Sample.callback_pattern 1402 12
      <$> seqZ 1 (days_in_month Arithmetic.is_leap 1402 12).
Proof.
  split; [reflexivity|].
  apply (days_in_order Sample.callback_pattern Sample.holidays
           Sample.today Arithmetic.check_date Arithmetic.is_leap
           Arithmetic.weekday 1402 12).
  reflexivity.
Defined.

Lemma day_position_witness :
  valid_month Arithmetic.check_date Arithmetic.is_leap 1402 1 = true /\
  1 <= 5 <= days_in_month Arithmetic.is_leap 1402 1 /\
  exists markup row,
    sample_create_calendar (Some 1402) (Some 1) = Ok markup /\
    inline_keyboard markup !! 3%nat = Some row /\
    row !! 0%nat = Some (sample_day_cell 1402 1 5).
Proof.
  split; [reflexivity|]. split; [vm_compute; intuition discriminate|].
  apply (day_position Sample.callback_pattern Sample.holidays
           Sample.today Arithmetic.check_date Arithmetic.is_leap
           Arithmetic.weekday 1402 1 5);
    [reflexivity | vm_compute; intuition discriminate].
Defined.

Lemma day_column_is_weekday_witness :
  valid_month Arithmetic.check_date Arithmetic.is_leap 1402 1 = true /\
  consecutive_weekdays Arithmetic.is_leap Arithmetic.weekday 1402 1 = true /\
  1 <= 4 <= days_in_month Arithmetic.is_leap 1402 1 /\
  Arithmetic.weekday {| year := 1402; month := 1; day := 4 |} = 4 /\
  exists markup row i,
    sample_create_calendar (Some 1402) (Some 1) = Ok markup /\
    inline_keyboard markup !! i = Some row /\
    row !! 6%nat = Some (sample_day_cell 1402 1 4).
Proof.
  split; [reflexivity|]. split; [reflexivity|].
  split; [vm_compute; intuition discriminate|]. split; [reflexivity|].
  apply (day_column_is_weekday Sample.callback_pattern Sample.holidays
           Sample.today Arithmetic.check_date Arithmetic.is_leap
           Arithmetic.weekday 1402 1 4);
    [reflexivity | reflexivity | vm_compute; intuition discriminate].
Defined.

Lemma cells_decode_witness :
  no_underscore Sample.callback_pattern = true /\
  startswith "ignore" Sample.callback_pattern = false /\
  valid_month Arithmetic.check_date Arithmetic.is_leap 1402 1 = true /\
  exists markup,
    sample_create_calendar (Some 1402) (Some 1) = Ok markup /\
    Forall (fun b =>
              callback_data b = "ignore"
              /\ sample_process_selection (callback_data b) = ([answer], Ok None)
              \/ exists d, 1 <= d <= days_in_month Arithmetic.is_leap 1402 1 /\
                   b = sample_day_cell 1402 1 d /\
                   sample_process_selection (callback_data b)
                   = ([answer],
                      Ok (Some (str 1402 +:+ "/" +:+ str 1 +:+ "/" +:+ str d))))
           (concat (drop 1 (inline_keyboard markup))).
Proof.
  split; [reflexivity|]. split; [reflexivity|]. split; [reflexivity|].
  apply (cells_decode Sample.callback_pattern Sample.holidays
           Sample.today Arithmetic.check_date Arithmetic.is_leap
           Arithmetic.weekday Sample.unicode_to_ascii 1402 1); reflexivity.
Defined.

Lemma day_token_distinct_witness :
  (1402 <> 1402 \/ 1 <> 11 \/ 1 <> 1) /\
  day_token Sample.callback_pattern 1402 1 1
  <> day_token Sample.callback_pattern 1402 11 1.
Proof.
  split; [lia|].
  apply (day_token_distinct Sample.callback_pattern Sample.today
           Arithmetic.check_date Arithmetic.is_leap Arithmetic.weekday Sample.unicode_to_ascii
           1402 1 1 1402 11 1).
  lia.
Defined.

Lemma show_calendar_today_witness :
  valid_month Arithmetic.check_date Arithmetic.is_leap
    (year Sample.today) (month Sample.today) = true /\
  falsy None || falsy None = true /\
  exists name markup,
    _get_persian_month_name (month Sample.today) = Ok name /\
    sample_create_calendar (Some (year Sample.today)) (Some (month Sample.today))
    = Ok markup /\
    sample_show_calendar None None
    = ([reply_text
          ("لطفاً تاریخ مورد نظر را انتخاب کنید:" +:+ newline +:+ "امروز: "
           +:+ str (day Sample.today) +:+ " " +:+ name +:+ " "
           +:+ str (year Sample.today))
          markup],
       Ok tt).
Proof.
  split; [reflexivity|]. split; [reflexivity|].
  apply (show_calendar_today Sample.callback_pattern Sample.holidays
           Sample.today Arithmetic.check_date Arithmetic.is_leap
           Arithmetic.weekday None None); reflexivity.
Defined.
